(** * HR Copilot: a shallow embedding of the query pipeline

    The repository holds several near-duplicate versions of one Appwrite
    function.  Three of them carry the logic studied here:

    - [Full]       : src/main.js, first document (handler with the 405 guard,
                     classifier with the TRAINING rule, two retrievers whose
                     blocks name two classes the module does not import);
    - [Enhanced]   : src/main.js, third document ([appwriteFunction], agent
                     metrics, ticket escalation, classifier without TRAINING);
    - [Simplified] : the function whose parts are headed "Simplified"
                     (classifier without TRAINING, one retriever, ticket
                     escalation).

    JavaScript values that may be [undefined] are [option]s, thrown
    exceptions are the [Throw] branch of [Result], external services are
    oracles collected in a record [Env], and [Map]s are [gmap]s. *)

From Stdlib Require Import ZArith NArith Ascii String Bool Lia DecimalString.
From Stdlib Require DecimalPos DecimalZ.
From stdpp Require Import base option list strings gmap.

(** ** JavaScript strings *)

Module Js.

(** A string is a sequence of code units, here those below 256 (Latin-1).
    [String.prototype.toLowerCase] on this range: the letters A-Z and the
    accented capitals U+00C0-U+00DE (without the multiplication sign U+00D7)
    move up by 32, every other code unit is left as it is. *)
Definition lower_code (c : ascii) : ascii :=
  let n := N_of_ascii c in
  if ((65 <=? n)%N && (n <=? 90)%N) ||
     ((192 <=? n)%N && (n <=? 222)%N && negb (n =? 215)%N)
  then ascii_of_N (n + 32) else c.

Fixpoint toLowerCase (s : string) : string :=
  match s with
  | EmptyString => EmptyString
  | String c s' => String (lower_code c) (toLowerCase s')
  end.

(** [s.startsWith(t)] *)
Fixpoint startsWith (s t : string) {struct t} : bool :=
  match t, s with
  | EmptyString, _ => true
  | String _ _, EmptyString => false
  | String b t', String a s' => if ascii_dec a b then startsWith s' t' else false
  end.

(** [s.includes(t)]: [t] occurs in [s] at some position. *)
Fixpoint includes (s t : string) : bool :=
  startsWith s t ||
  match s with
  | EmptyString => false
  | String _ s' => includes s' t
  end.

(** White space and line terminators in the sense of
    [String.prototype.trim], below 256: TAB, LF, VT, FF, CR, SP, NBSP. *)
Definition is_whitespace (c : ascii) : bool :=
  let n := N_of_ascii c in
  ((9 <=? n)%N && (n <=? 13)%N) || (n =? 32)%N || (n =? 160)%N.

Fixpoint all_whitespace (s : string) : bool :=
  match s with
  | EmptyString => true
  | String c s' => is_whitespace c && all_whitespace s'
  end.

(** Template-literal rendering of an integer, as in [`${Date.now()}`]. *)
Definition string_of_Z (z : Z) : string :=
  NilZero.string_of_int (Z.to_int z).

(** A thrown exception; only its [message] is ever read by the code. *)
Record Error := { name : string; message : string }.

Definition TypeError (msg : string) : Error :=
  {| name := "TypeError"; message := msg |}.

(** Spreading or destructuring [undefined]. *)
Definition not_iterable (what : string) : Error :=
  TypeError (what +:+ " is not iterable").

Definition cannot_destructure (prop from : string) : Error :=
  TypeError ("Cannot destructure property '" +:+ prop +:+ "' of '" +:+ from +:+
             "' as it is undefined.").

(** Reading property [prop] of [undefined]. *)
Definition undefined_property (prop : string) : Error :=
  TypeError ("Cannot read properties of undefined (reading '" +:+ prop +:+ "')").

(** Evaluating an identifier that has no binding. *)
Definition ReferenceError (ident : string) : Error :=
  {| name := "ReferenceError"; message := ident +:+ " is not defined" |}.

Inductive Result (A : Type) : Type :=
  | Ok (a : A)
  | Throw (e : Error).
Arguments Ok {A} a.
Arguments Throw {A} e.

(** Reading a result: whether the call returned, and a view of what it
    returned. *)
Definition is_ok {A : Type} (r : Result A) : bool :=
  match r with Ok _ => true | Throw _ => false end.

Definition on_ok {A B : Type} (f : A -> B) (d : B) (r : Result A) : B :=
  match r with Ok a => f a | Throw _ => d end.

(** The names of the language and of the runtime that the modules use. *)
Definition globals : list string :=
  [ "process"; "console"; "Date"; "JSON"; "Map"; "Error" ].

(** Evaluating the identifier [ident] in a module whose bindings (imports,
    declarations and globals) are [scope]. *)
Definition resolve (scope : list string) (ident : string) : Result unit :=
  if existsb (String.eqb ident) scope then Ok tt else Throw (ReferenceError ident).

End Js.

Import Js.

(** ** Pipeline state

    The channels of the [StateGraph]: every channel may still be unset. *)

Record Message := { role : string; content : option string }.

(** The employee context is a plain object; a property may hold
    [undefined] ([None]) or a string. *)
Abbreviation EmployeeContext := (gmap string (option string)).

Record State := {
  query : option string;
  category : option string;
  pinecone_result : option string;
  llamaindex_result : option string;
  employee_context : option EmployeeContext;
  conversation_history : option (list Message);
  final_response : option string
}.

(** What a node returns: an object with one channel set. *)
Inductive Update :=
  | SetCategory (v : string)
  | SetPineconeResult (v : string)
  | SetLlamaindexResult (v : string)
  | SetEmployeeContext (v : option EmployeeContext)
  | SetConversationHistory (v : list Message)
  | SetFinalResponse (v : string).

(** The returned channel overwrites the state's, the others are kept. *)
Definition apply_update (st : State) (u : Update) : State :=
  match u with
  | SetCategory v =>
      {| query := query st; category := Some v;
         pinecone_result := pinecone_result st;
         llamaindex_result := llamaindex_result st;
         employee_context := employee_context st;
         conversation_history := conversation_history st;
         final_response := final_response st |}
  | SetPineconeResult v =>
      {| query := query st; category := category st;
         pinecone_result := Some v;
         llamaindex_result := llamaindex_result st;
         employee_context := employee_context st;
         conversation_history := conversation_history st;
         final_response := final_response st |}
  | SetLlamaindexResult v =>
      {| query := query st; category := category st;
         pinecone_result := pinecone_result st;
         llamaindex_result := Some v;
         employee_context := employee_context st;
         conversation_history := conversation_history st;
         final_response := final_response st |}
  | SetEmployeeContext v =>
      {| query := query st; category := category st;
         pinecone_result := pinecone_result st;
         llamaindex_result := llamaindex_result st;
         employee_context := v;
         conversation_history := conversation_history st;
         final_response := final_response st |}
  | SetConversationHistory v =>
      {| query := query st; category := category st;
         pinecone_result := pinecone_result st;
         llamaindex_result := llamaindex_result st;
         employee_context := employee_context st;
         conversation_history := Some v;
         final_response := final_response st |}
  | SetFinalResponse v =>
      {| query := query st; category := category st;
         pinecone_result := pinecone_result st;
         llamaindex_result := llamaindex_result st;
         employee_context := employee_context st;
         conversation_history := conversation_history st;
         final_response := Some v |}
  end.

(** The state a handler builds from a request. *)
Definition initial_state (q : option string) (ctx : option EmployeeContext)
    (hist : option (list Message)) : State :=
  {| query := q; category := None; pinecone_result := None;
     llamaindex_result := None; employee_context := ctx;
     conversation_history := hist; final_response := None |}.

(** ** The workflow graph

    [W] is the in-memory state the nodes of a given version share (tool
    instances, the agent manager).  A node reads the pipeline state and
    returns one update or throws. *)

Module StateGraph.
Section Graph.
Context {W : Type}.

Definition NodeFn : Type := State -> W -> Result Update * W.

Record Workflow := {
  nodes : list (string * NodeFn);
  edges : list (string * string);
  entryPoint : option string
}.

Definition empty : Workflow :=
  {| nodes := []; edges := []; entryPoint := None |}.

Definition addNode (key : string) (fn : NodeFn) (wf : Workflow) : Workflow :=
  {| nodes := nodes wf ++ [(key, fn)]; edges := edges wf;
     entryPoint := entryPoint wf |}.

Definition addEdge (src dst : string) (wf : Workflow) : Workflow :=
  {| nodes := nodes wf; edges := edges wf ++ [(src, dst)];
     entryPoint := entryPoint wf |}.

Definition setEntryPoint (key : string) (wf : Workflow) : Workflow :=
  {| nodes := nodes wf; edges := edges wf; entryPoint := Some key |}.

Definition END : string := "__end__".

Fixpoint assoc {A : Type} (key : string) (l : list (string * A)) : option A :=
  match l with
  | [] => None
  | (k, v) :: l' => if String.eqb k key then Some v else assoc key l'
  end.

(** The nodes run so far, each with the state it was handed. *)
Definition Trace : Type := list (string * State).

Inductive RunResult :=
  | Finished (st : State) (w : W) (tr : Trace)
  | Failed (e : Error) (st : State) (w : W) (tr : Trace).

Definition recursionLimit : nat := 25.

Definition GraphRecursionError : Error :=
  {| name := "GraphRecursionError"; message := "Recursion limit reached" |}.

Definition GraphValueError (key : string) : Error :=
  {| name := "GraphValueError"; message := "Unknown node " +:+ key |}.

(** One super-step per unit of fuel: run the current node, merge its update,
    follow its outgoing edge; a thrown error ends the run at once. *)
Fixpoint run_from (fuel : nat) (wf : Workflow) (cur : string)
    (st : State) (w : W) (tr : Trace) : RunResult :=
  if String.eqb cur END then Finished st w tr
  else
    match fuel with
    | O => Failed GraphRecursionError st w tr
    | S fuel' =>
        match assoc cur (nodes wf) with
        | None => Failed (GraphValueError cur) st w tr
        | Some fn =>
            let tr' := tr ++ [(cur, st)] in
            match fn st w with
            | (Throw e, w') => Failed e st w' tr'
            | (Ok u, w') =>
                match assoc cur (edges wf) with
                | None => Failed (GraphValueError cur) (apply_update st u) w' tr'
                | Some next =>
                    run_from fuel' wf next (apply_update st u) w' tr'
                end
            end
        end
    end.

Definition invoke (wf : Workflow) (input : State) (w : W) : RunResult :=
  match entryPoint wf with
  | None => Failed (GraphValueError "__start__") input w []
  | Some entry => run_from recursionLimit wf entry input w []
  end.

Definition visited (r : RunResult) : Trace :=
  match r with Finished _ _ tr | Failed _ _ _ tr => tr end.

Definition final_state (r : RunResult) : State :=
  match r with Finished st _ _ | Failed _ st _ _ => st end.

Definition succeeded (r : RunResult) : bool :=
  match r with Finished _ _ _ => true | Failed _ _ _ _ => false end.

Definition ran (key : string) (tr : Trace) : bool :=
  existsb (fun e => String.eqb (fst e) key) tr.

End Graph.
Arguments NodeFn : clear implicits.
Arguments Workflow : clear implicits.
Arguments RunResult : clear implicits.
End StateGraph.

Import StateGraph.

(** ** What both retrievers and the handlers share *)

(** [v || d] on a possibly undefined string: [undefined] and the empty
    string are falsy. *)
Definition or_else (v : option string) (d : string) : string :=
  match v with
  | Some s => if String.eqb s "" then d else s
  | None => d
  end.

(** [`${v}`] for a possibly undefined string. *)
Definition interpolate (v : option string) : string :=
  match v with Some s => s | None => "undefined" end.

(** The answer of the vector index, read as [matches[0]?.metadata?.text];
    the text stored with a vector is a string. *)
Record Metadata := { text : option string }.
Record Match := { metadata : option Metadata }.
Record QueryResponse := { matches : option (list Match) }.

Definition NOT_FOUND : string := "No relevant information found.".
Definition PINECONE_ERROR : string := "Error retrieving information from Pinecone".
Definition LLAMAINDEX_ERROR : string := "Error retrieving information from LlamaIndex".

(** The external collaborators, as the outcome each call has in one run.
    Whatever makes a call throw (network, credentials, a malformed answer)
    is a [Throw]. *)
Record Env := {
  (** [pinecone.Index], the embedding of the query and [index.query] *)
  pinecone_query : option string -> Result QueryResponse;
  (** [storage.listFiles] and the download of every file *)
  fetch_documents : Result unit;
  (** the service context and [VectorStoreIndex.fromDocuments] *)
  llama_initialize : Result unit;
  (** [asQueryEngine], [query] and the rendering of the response *)
  llama_query : option string -> Result string;
  (** prompt, model and output parser *)
  chain_invoke : State -> Result string;
  (** [setupPinecone] *)
  setupPinecone : Result unit;
  (** construction of the model and compilation of the graph *)
  createAgent : Result unit;
  (** [Date.now()] *)
  now : Z
}.

(** The body of [queryPinecone], in the two modules that import the
    embedding class it names. *)
Definition queryPinecone (env : Env) (q : option string) : string :=
  match pinecone_query env q with
  | Throw _ => PINECONE_ERROR
  | Ok queryResponse =>
      match matches queryResponse with
      | None => PINECONE_ERROR
      | Some ms =>
          or_else (m ← head ms; md ← metadata m; text md) NOT_FOUND
      end
  end.

(** A JSON value of a response body. *)
Inductive JsValue :=
  | VNum (z : Z)
  | VStr (s : string)
  | VContext (c : EmployeeContext)
  | VHistory (h : list Message).

Record Response := {
  statusCode : Z;
  responseBody : list (string * JsValue)
}.

(** [res.json(obj, status)]: properties holding [undefined] are not
    serialised. *)
Definition res_json (obj : list (string * option JsValue)) (status : Z) : Response :=
  {| statusCode := status;
     responseBody := omap (fun kv => v ← snd kv; Some (fst kv, v)) obj |}.

Definition field (key : string) (r : Response) : option JsValue :=
  assoc key (responseBody r).

(** ** The full version (src/main.js, first document) *)

Module Full.

(** What outlives a request: the module-level [hrCopilot] singleton and the
    [index] field of the LlamaIndex tool it holds. *)
Record Instance := { hrCopilot : bool; index : bool }.

(** [HRInputProcessingTool._call] *)
Definition HRInputProcessingTool_call (query : option string) : Result string :=
  match query with
  | None => Throw (undefined_property "toLowerCase")
  | Some query =>
      let lowercaseInput := toLowerCase query in
      if includes lowercaseInput "policy" || includes lowercaseInput "handbook" then
        Ok "POLICY"
      else if includes lowercaseInput "leave" || includes lowercaseInput "vacation" then
        Ok "LEAVE"
      else if includes lowercaseInput "salary" || includes lowercaseInput "compensation" then
        Ok "COMPENSATION"
      else if includes lowercaseInput "training" || includes lowercaseInput "development" then
        Ok "TRAINING"
      else
        Ok "GENERAL"
  end.

(** The names the module imports (lines 18-28) and the names it declares
    at its top level.  [HuggingFaceTransformersEmbeddings] and [Storage] are
    used below and are in neither list. *)
Definition imports : list string :=
  [ "Client"; "ChatGoogleGenerativeAI"; "Pinecone"; "StateGraph"; "END";
    "RunnableSequence"; "StringOutputParser"; "PromptTemplate"; "z"; "dotenv";
    "StructuredTool"; "Document"; "VectorStoreIndex";
    "serviceContextFromDefaults"; "Gemini" ].

Definition declarations : list string :=
  [ "client"; "HRInputProcessingTool"; "PineconeQueryTool"; "LlamaIndexTool";
    "hrCopilot"; "setupPinecone"; "createEnhancedHRCopilotAgent"; "initialize" ].

Definition scope : list string := imports ++ declarations ++ globals.

(** [PineconeQueryTool._call]: the try block and its catch.  The block
    evaluates [new HuggingFaceTransformersEmbeddings()] before it embeds the
    query; whatever is thrown inside the block ends in the catch. *)
Definition PineconeQueryTool_call (env : Env) (query : option string) : string :=
  match resolve scope "HuggingFaceTransformersEmbeddings" with
  | Throw _ => PINECONE_ERROR
  | Ok _ =>
      match pinecone_query env query with
      | Throw _ => PINECONE_ERROR
      | Ok queryResponse =>
          match matches queryResponse with
          | None => PINECONE_ERROR
          | Some ms =>
              or_else (m ← head ms; md ← metadata m; text md) NOT_FOUND
          end
      end
  end.

(** [LlamaIndexTool.fetchDocumentsFromAppwrite]: the first statement of the
    try block is [new Storage(client)]; the catch logs the error and throws
    it again. *)
Definition LlamaIndexTool_fetchDocumentsFromAppwrite (env : Env) : Result unit :=
  match resolve scope "Storage" with
  | Throw error => Throw error
  | Ok _ =>
      match fetch_documents env with
      | Throw error => Throw error
      | Ok documents => Ok documents
      end
  end.

(** [LlamaIndexTool.initialize]: [this.index] is assigned last. *)
Definition LlamaIndexTool_initialize (env : Env) (w : Instance) : Result unit * Instance :=
  match LlamaIndexTool_fetchDocumentsFromAppwrite env with
  | Throw e => (Throw e, w)
  | Ok _ =>
      match llama_initialize env with
      | Throw e => (Throw e, w)
      | Ok _ => (Ok tt, {| hrCopilot := hrCopilot w; index := true |})
      end
  end.

(** [LlamaIndexTool._call] *)
Definition LlamaIndexTool_call (env : Env) (query : option string) (w : Instance)
    : string * Instance :=
  let '(ready, w') :=
    if negb (index w) then LlamaIndexTool_initialize env w else (Ok tt, w) in
  match ready with
  | Throw _ => (LLAMAINDEX_ERROR, w')
  | Ok _ =>
      match llama_query env query with
      | Throw _ => (LLAMAINDEX_ERROR, w')
      | Ok response => (response, w')
      end
  end.

Inductive Tool := HRInputProcessingTool | PineconeQueryTool | LlamaIndexTool.

Definition tool_name (t : Tool) : string :=
  match t with
  | HRInputProcessingTool => "HR Input Processing"
  | PineconeQueryTool => "Pinecone Query"
  | LlamaIndexTool => "LlamaIndex Query"
  end.

Definition tools : list Tool :=
  [HRInputProcessingTool; PineconeQueryTool; LlamaIndexTool].

(** [tool._call({ query })] through the common interface. *)
Definition Tool_call (t : Tool) (env : Env) (query : option string) (w : Instance)
    : Result string * Instance :=
  match t with
  | HRInputProcessingTool => (HRInputProcessingTool_call query, w)
  | PineconeQueryTool => (Ok (PineconeQueryTool_call env query), w)
  | LlamaIndexTool =>
      let '(r, w') := LlamaIndexTool_call env query w in (Ok r, w')
  end.

(** [tools.find(t => t.name === key)._call({ query })] *)
Definition find_call (key : string) (env : Env) (query : option string) (w : Instance)
    : Result string * Instance :=
  match List.find (fun t => String.eqb (tool_name t) key) tools with
  | None => (Throw (undefined_property "_call"), w)
  | Some tool => Tool_call tool env query w
  end.

Definition employeeContextNode : NodeFn Instance := fun state w =>
  (Ok (SetEmployeeContext (employee_context state)), w).

Definition categorizeNode (env : Env) : NodeFn Instance := fun state w =>
  match find_call "HR Input Processing" env (query state) w with
  | (Throw e, w') => (Throw e, w')
  | (Ok result, w') => (Ok (SetCategory result), w')
  end.

Definition pineconeNode (env : Env) : NodeFn Instance := fun state w =>
  match find_call "Pinecone Query" env (query state) w with
  | (Throw e, w') => (Throw e, w')
  | (Ok result, w') => (Ok (SetPineconeResult result), w')
  end.

Definition llamaindexNode (env : Env) : NodeFn Instance := fun state w =>
  match find_call "LlamaIndex Query" env (query state) w with
  | (Throw e, w') => (Throw e, w')
  | (Ok result, w') => (Ok (SetLlamaindexResult result), w')
  end.

Definition responseNode (env : Env) : NodeFn Instance := fun state w =>
  match chain_invoke env state with
  | Throw e => (Throw e, w)
  | Ok result => (Ok (SetFinalResponse result), w)
  end.

Definition conversationHistoryNode : NodeFn Instance := fun state w =>
  match conversation_history state with
  | None => (Throw (not_iterable "state.conversation_history"), w)
  | Some history =>
      let updatedHistory :=
        history ++ [ {| role := "user"; content := query state |};
                     {| role := "assistant"; content := final_response state |} ] in
      (Ok (SetConversationHistory updatedHistory), w)
  end.

Definition workflow (env : Env) : Workflow Instance :=
  let wf := StateGraph.empty in
  let wf := addNode "fetch_employee_context" employeeContextNode wf in
  let wf := addNode "categorize" (categorizeNode env) wf in
  let wf := addNode "pinecone_query" (pineconeNode env) wf in
  let wf := addNode "llamaindex_query" (llamaindexNode env) wf in
  let wf := addNode "respond" (responseNode env) wf in
  let wf := addNode "update_conversation_history" conversationHistoryNode wf in
  let wf := setEntryPoint "fetch_employee_context" wf in
  let wf := addEdge "fetch_employee_context" "categorize" wf in
  let wf := addEdge "categorize" "pinecone_query" wf in
  let wf := addEdge "pinecone_query" "llamaindex_query" wf in
  let wf := addEdge "llamaindex_query" "respond" wf in
  let wf := addEdge "respond" "update_conversation_history" wf in
  let wf := addEdge "update_conversation_history" END wf in
  wf.

(** The module-level [initialize]: builds the singleton once. *)
Definition initialize (env : Env) (w : Instance) : Result unit * Instance :=
  if negb (hrCopilot w) then
    match setupPinecone env with
    | Throw e => (Throw e, w)
    | Ok _ =>
        match createAgent env with
        | Throw e => (Throw e, w)
        | Ok _ => (Ok tt, {| hrCopilot := true; index := index w |})
        end
    end
  else (Ok tt, w).

Record Body := {
  body_query : option string;
  body_employee_context : option EmployeeContext;
  body_conversation_history : option (list Message)
}.

Record Request := { method : string; body : option Body }.

(** What one call of the handler leaves behind: the response, the instance
    state, and the nodes the pipeline ran. *)
Record Outcome := {
  response : Response;
  instance : Instance;
  executed : Trace
}.

Definition methodNotAllowed : Response :=
  res_json [("status", Some (VNum 405));
            ("message", Some (VStr "Method Not Allowed"))] 405.

Definition internalServerError (err : Error) : Response :=
  res_json [("status", Some (VNum 500));
            ("message", Some (VStr "Internal Server Error"));
            ("error", Some (VStr (message err)))] 500.

Definition success (result : State) : Response :=
  res_json [("status", Some (VNum 200));
            ("message", Some (VStr "Success"));
            ("final_response", VStr <$> final_response result);
            ("category", VStr <$> category result)] 200.

(** The default export. *)
Definition handler (env : Env) (req : Request) (w : Instance) : Outcome :=
  if negb (String.eqb (method req) "POST") then
    {| response := methodNotAllowed; instance := w; executed := [] |}
  else
    match initialize env w with
    | (Throw err, w1) =>
        {| response := internalServerError err; instance := w1; executed := [] |}
    | (Ok _, w1) =>
        match body req with
        | None =>
            {| response := internalServerError (cannot_destructure "query" "req.body");
               instance := w1; executed := [] |}
        | Some b =>
            let input := initial_state (body_query b) (body_employee_context b)
                           (body_conversation_history b) in
            match invoke (workflow env) input w1 with
            | Failed err _ w2 tr =>
                {| response := internalServerError err; instance := w2;
                   executed := tr |}
            | Finished result w2 tr =>
                {| response := success result; instance := w2; executed := tr |}
            end
        end
    end.

End Full.

(** ** Ticket bookkeeping ([TicketManagementSystem]) *)

Module TicketManagementSystem.

Record Ticket := {
  id : string;
  description : string;
  status : string;
  priority : string;
  updates : list (Z * string)
}.

(** [this.tickets]: a [Map] from id to ticket. *)
Abbreviation Tickets := (gmap string Ticket).

Definition new : Tickets := ∅.

(** [createTicket(description, priority = 'medium')]; [now] is the reading
    of [Date.now()]. *)
Definition createTicket (description : string) (priority : option string)
    (now : Z) (tickets : Tickets) : string * Tickets :=
  let id := "TICKET-" +:+ string_of_Z now in
  (id, <[id := {| id := id; description := description; status := "open";
                  priority := default "medium" priority; updates := [] |}]> tickets).

(** [updateTicket(id, update)] *)
Definition updateTicket (id : string) (update : string) (now : Z)
    (tickets : Tickets) : Tickets :=
  match tickets !! id with
  | Some ticket =>
      <[id := {| id := TicketManagementSystem.id ticket;
                 description := description ticket;
                 status := status ticket; priority := priority ticket;
                 updates := updates ticket ++ [(now, update)] |}]> tickets
  | None => tickets
  end.

(** [getTicketStatus(id)] *)
Definition getTicketStatus (id : string) (tickets : Tickets) : string :=
  or_else (status <$> tickets !! id) "not found".

(** A history of calls on one ticket system. *)
Inductive Call :=
  | CreateTicket (description : string) (priority : option string) (now : Z)
  | UpdateTicket (id : string) (update : string) (now : Z).

(** Runs the calls in order; returns the system and the ids handed out. *)
Fixpoint run (calls : list Call) (tickets : Tickets) (ids : list string)
    : Tickets * list string :=
  match calls with
  | [] => (tickets, ids)
  | CreateTicket d p n :: rest =>
      let '(i, tickets') := createTicket d p n tickets in
      run rest tickets' (ids ++ [i])
  | UpdateTicket i u n :: rest =>
      run rest (updateTicket i u n tickets) ids
  end.

End TicketManagementSystem.

(** ** Agent bookkeeping ([AIAgentManager]) *)

Module AIAgentManager.

Record Agent := {
  type : string;
  status : string;
  metrics : gmap string Z
}.

Abbreviation Agents := (gmap string Agent).

Definition new : Agents := ∅.

Definition addAgent (name type : string) (agents : Agents) : Agents :=
  <[name := {| type := type; status := "active"; metrics := ∅ |}]> agents.

(** [{ ...agent.metrics, ...metrics }]: the new readings win. *)
Definition updateAgentMetrics (name : string) (m : gmap string Z)
    (agents : Agents) : Agents :=
  match agents !! name with
  | Some agent =>
      <[name := {| type := type agent; status := status agent;
                   metrics := m ∪ metrics agent |}]> agents
  | None => agents
  end.

Definition getAgentStatus (name : string) (agents : Agents) : string :=
  or_else (status <$> agents !! name) "not found".

Definition queries_processed : gmap string Z := {[ "queries_processed" := 1%Z ]}.

End AIAgentManager.

(** ** Escalation, as both ticketing handlers write it

    [if (result.final_response.toLowerCase().includes("contact hr"))]
    creates a high-priority ticket and stores its id in the result. *)

Definition ESCALATION_MARKER : string := "contact hr".

Definition escalate (final_response : string) (query : option string) (now : Z)
    (ticketSystem : TicketManagementSystem.Tickets)
    : option string * TicketManagementSystem.Tickets :=
  if includes (toLowerCase final_response) ESCALATION_MARKER then
    let '(ticketId, ticketSystem') :=
      TicketManagementSystem.createTicket
        ("Query requires human assistance: " +:+ interpolate query)
        (Some "high") now ticketSystem in
    (Some ticketId, ticketSystem')
  else (None, ticketSystem).

(** The 500 answer of both ticketing handlers. *)
Definition processingError (error : Error) : Response :=
  res_json [("error", Some (VStr "An error occurred while processing your request."));
            ("details", Some (VStr (message error)))] 500.

(** The parsed [req.payload]. *)
Record Payload := {
  payload_query : option string;
  payload_employeeContext : option EmployeeContext
}.

(** [JSON.parse(req.payload)] and the destructuring of its result.
    [payload = None]: one of the two throws, and [parse_error] is what it
    throws (for a text that is not JSON a SyntaxError whose message depends
    on the text and on the runtime); otherwise [parse_error] is not read. *)
Record PayloadRequest := { payload : option Payload; parse_error : Error }.

Record TicketingOutcome := {
  t_response : Response;
  t_tickets : TicketManagementSystem.Tickets;
  t_agents : AIAgentManager.Agents;
  t_executed : Trace
}.

(** ** The simplified version *)

Module Simplified.

(** [HRInputProcessingTool._call], three rules. *)
Definition HRInputProcessingTool_call (query : option string) : Result string :=
  match query with
  | None => Throw (undefined_property "toLowerCase")
  | Some query =>
      let lowercaseInput := toLowerCase query in
      if includes lowercaseInput "policy" || includes lowercaseInput "handbook" then
        Ok "POLICY"
      else if includes lowercaseInput "leave" || includes lowercaseInput "vacation" then
        Ok "LEAVE"
      else if includes lowercaseInput "salary" || includes lowercaseInput "compensation" then
        Ok "COMPENSATION"
      else
        Ok "GENERAL"
  end.

Definition PineconeQueryTool_call (env : Env) (query : option string) : string :=
  queryPinecone env query.

Inductive Tool := HRInputProcessingTool | PineconeQueryTool.

Definition tool_name (t : Tool) : string :=
  match t with
  | HRInputProcessingTool => "HR Input Processing"
  | PineconeQueryTool => "Pinecone Query"
  end.

Definition tools : list Tool := [HRInputProcessingTool; PineconeQueryTool].

Definition Tool_call (t : Tool) (env : Env) (query : option string) : Result string :=
  match t with
  | HRInputProcessingTool => HRInputProcessingTool_call query
  | PineconeQueryTool => Ok (PineconeQueryTool_call env query)
  end.

Definition find_call (key : string) (env : Env) (query : option string) : Result string :=
  match List.find (fun t => String.eqb (tool_name t) key) tools with
  | None => Throw (undefined_property "_call")
  | Some tool => Tool_call tool env query
  end.

Definition categorizeNode (env : Env) : NodeFn AIAgentManager.Agents :=
  fun state agentManager =>
  match find_call "HR Input Processing" env (query state) with
  | Throw e => (Throw e, agentManager)
  | Ok result =>
      (Ok (SetCategory result),
       AIAgentManager.updateAgentMetrics "HR Input Processing"
         AIAgentManager.queries_processed agentManager)
  end.

Definition pineconeNode (env : Env) : NodeFn AIAgentManager.Agents :=
  fun state agentManager =>
  match find_call "Pinecone Query" env (query state) with
  | Throw e => (Throw e, agentManager)
  | Ok result =>
      (Ok (SetPineconeResult result),
       AIAgentManager.updateAgentMetrics "Pinecone Query"
         AIAgentManager.queries_processed agentManager)
  end.

Definition responseNode (env : Env) : NodeFn AIAgentManager.Agents :=
  fun state agentManager =>
  match chain_invoke env state with
  | Throw e => (Throw e, agentManager)
  | Ok result => (Ok (SetFinalResponse result), agentManager)
  end.

Definition workflow (env : Env) : Workflow AIAgentManager.Agents :=
  let wf := StateGraph.empty in
  let wf := addNode "categorize" (categorizeNode env) wf in
  let wf := addNode "pinecone_query" (pineconeNode env) wf in
  let wf := addNode "respond" (responseNode env) wf in
  let wf := setEntryPoint "categorize" wf in
  let wf := addEdge "categorize" "pinecone_query" wf in
  let wf := addEdge "pinecone_query" "respond" wf in
  let wf := addEdge "respond" END wf in
  wf.

Definition success (result : State) (ticketId : option string) : Response :=
  res_json [("result", VStr <$> final_response result);
            ("category", VStr <$> category result);
            ("pinecone_result", VStr <$> pinecone_result result);
            ("ticketId", VStr <$> ticketId)] 200.

Definition failure (error : Error) (tickets : TicketManagementSystem.Tickets)
    (agents : AIAgentManager.Agents) (tr : Trace) : TicketingOutcome :=
  {| t_response := processingError error; t_tickets := tickets;
     t_agents := agents; t_executed := tr |}.

(** The default export; an error of [setupPinecone] escapes it. *)
Definition handler (env : Env) (req : PayloadRequest) : Result TicketingOutcome :=
  match setupPinecone env with
  | Throw e => Throw e
  | Ok _ =>
      let agentManager := AIAgentManager.new in
      let agentManager :=
        AIAgentManager.addAgent "HR Input Processing" "categorization" agentManager in
      let agentManager :=
        AIAgentManager.addAgent "Pinecone Query" "knowledge_base" agentManager in
      let ticketSystem := TicketManagementSystem.new in
      match createAgent env with
      | Throw error => Ok (failure error ticketSystem agentManager [])
      | Ok _ =>
          match payload req with
          | None => Ok (failure (parse_error req) ticketSystem agentManager [])
          | Some p =>
              let query := payload_query p in
              match invoke (workflow env) (initial_state query None None)
                      agentManager with
              | Failed error _ agents tr => Ok (failure error ticketSystem agents tr)
              | Finished result agents tr =>
                  match final_response result with
                  | None =>
                      Ok (failure (undefined_property "toLowerCase")
                            ticketSystem agents tr)
                  | Some final =>
                      let '(ticketId, ticketSystem') :=
                        escalate final query (now env) ticketSystem in
                      Ok {| t_response := success result ticketId;
                            t_tickets := ticketSystem';
                            t_agents := agents; t_executed := tr |}
                  end
              end
          end
      end
  end.

End Simplified.

(** ** The enhanced version (src/main.js, third document) *)

Module Enhanced.

(** [HRInputProcessingTool._call], three rules as in the simplified
    version. *)
Definition HRInputProcessingTool_call (query : option string) : Result string :=
  match query with
  | None => Throw (undefined_property "toLowerCase")
  | Some query =>
      let lowercaseInput := toLowerCase query in
      if includes lowercaseInput "policy" || includes lowercaseInput "handbook" then
        Ok "POLICY"
      else if includes lowercaseInput "leave" || includes lowercaseInput "vacation" then
        Ok "LEAVE"
      else if includes lowercaseInput "salary" || includes lowercaseInput "compensation" then
        Ok "COMPENSATION"
      else
        Ok "GENERAL"
  end.

Definition PineconeQueryTool_call (env : Env) (query : option string) : string :=
  queryPinecone env query.

(** [LlamaIndexTool._call]: the query engine was set up by the constructor. *)
Definition LlamaIndexTool_call (env : Env) (query : option string) : string :=
  match llama_query env query with
  | Throw _ => LLAMAINDEX_ERROR
  | Ok content => content
  end.

Inductive Tool := HRInputProcessingTool | PineconeQueryTool | LlamaIndexTool.

Definition tool_name (t : Tool) : string :=
  match t with
  | HRInputProcessingTool => "HR Input Processing"
  | PineconeQueryTool => "Pinecone Query"
  | LlamaIndexTool => "LlamaIndex Query"
  end.

Definition tools : list Tool :=
  [HRInputProcessingTool; PineconeQueryTool; LlamaIndexTool].

Definition Tool_call (t : Tool) (env : Env) (query : option string) : Result string :=
  match t with
  | HRInputProcessingTool => HRInputProcessingTool_call query
  | PineconeQueryTool => Ok (PineconeQueryTool_call env query)
  | LlamaIndexTool => Ok (LlamaIndexTool_call env query)
  end.

Definition find_call (key : string) (env : Env) (query : option string) : Result string :=
  match List.find (fun t => String.eqb (tool_name t) key) tools with
  | None => Throw (undefined_property "_call")
  | Some tool => Tool_call tool env query
  end.

(** [ctx.key]: a missing property reads as [undefined]. *)
Definition prop (ctx : EmployeeContext) (key : string) : option string :=
  mjoin (ctx !! key).

(** The object literal the context node builds. *)
Definition rebuild (ctx : EmployeeContext) : EmployeeContext :=
  <["department" := prop ctx "department"]>
    (<["role" := prop ctx "role"]>
       (<["tenure" := prop ctx "tenure"]> ∅)).

Definition employeeContextNode : NodeFn AIAgentManager.Agents :=
  fun state agentManager =>
  match employee_context state with
  | None => (Throw (undefined_property "department"), agentManager)
  | Some ctx => (Ok (SetEmployeeContext (Some (rebuild ctx))), agentManager)
  end.

Definition categorizeNode (env : Env) : NodeFn AIAgentManager.Agents :=
  fun state agentManager =>
  match find_call "HR Input Processing" env (query state) with
  | Throw e => (Throw e, agentManager)
  | Ok result =>
      (Ok (SetCategory result),
       AIAgentManager.updateAgentMetrics "HR Input Processing"
         AIAgentManager.queries_processed agentManager)
  end.

Definition pineconeNode (env : Env) : NodeFn AIAgentManager.Agents :=
  fun state agentManager =>
  match find_call "Pinecone Query" env (query state) with
  | Throw e => (Throw e, agentManager)
  | Ok result =>
      (Ok (SetPineconeResult result),
       AIAgentManager.updateAgentMetrics "Pinecone Query"
         AIAgentManager.queries_processed agentManager)
  end.

Definition llamaindexNode (env : Env) : NodeFn AIAgentManager.Agents :=
  fun state agentManager =>
  match find_call "LlamaIndex Query" env (query state) with
  | Throw e => (Throw e, agentManager)
  | Ok result =>
      (Ok (SetLlamaindexResult result),
       AIAgentManager.updateAgentMetrics "LlamaIndex Query"
         AIAgentManager.queries_processed agentManager)
  end.

Definition responseNode (env : Env) : NodeFn AIAgentManager.Agents :=
  fun state agentManager =>
  match chain_invoke env state with
  | Throw e => (Throw e, agentManager)
  | Ok result => (Ok (SetFinalResponse result), agentManager)
  end.

Definition conversationHistoryNode : NodeFn AIAgentManager.Agents :=
  fun state agentManager =>
  match conversation_history state with
  | None =>
      (Throw (not_iterable "state.conversation_history"), agentManager)
  | Some history =>
      let updatedHistory :=
        history ++ [ {| role := "user"; content := query state |};
                     {| role := "assistant"; content := final_response state |} ] in
      (Ok (SetConversationHistory updatedHistory), agentManager)
  end.

Definition workflow (env : Env) : Workflow AIAgentManager.Agents :=
  let wf := StateGraph.empty in
  let wf := addNode "fetch_employee_context" employeeContextNode wf in
  let wf := addNode "categorize" (categorizeNode env) wf in
  let wf := addNode "pinecone_query" (pineconeNode env) wf in
  let wf := addNode "llamaindex_query" (llamaindexNode env) wf in
  let wf := addNode "respond" (responseNode env) wf in
  let wf := addNode "update_conversation_history" conversationHistoryNode wf in
  let wf := setEntryPoint "fetch_employee_context" wf in
  let wf := addEdge "fetch_employee_context" "categorize" wf in
  let wf := addEdge "categorize" "pinecone_query" wf in
  let wf := addEdge "pinecone_query" "llamaindex_query" wf in
  let wf := addEdge "llamaindex_query" "respond" wf in
  let wf := addEdge "respond" "update_conversation_history" wf in
  let wf := addEdge "update_conversation_history" END wf in
  wf.

Definition success (result : State) (ticketId : option string) : Response :=
  res_json [("result", VStr <$> final_response result);
            ("category", VStr <$> category result);
            ("pinecone_result", VStr <$> pinecone_result result);
            ("llamaindex_result", VStr <$> llamaindex_result result);
            ("employee_context", VContext <$> employee_context result);
            ("conversation_history", VHistory <$> conversation_history result);
            ("ticketId", VStr <$> ticketId)] 200.

Definition failure (error : Error) (tickets : TicketManagementSystem.Tickets)
    (agents : AIAgentManager.Agents) (tr : Trace) : TicketingOutcome :=
  {| t_response := processingError error; t_tickets := tickets;
     t_agents := agents; t_executed := tr |}.

(** [appwriteFunction]; an error of [setupPinecone] escapes it. *)
Definition appwriteFunction (env : Env) (req : PayloadRequest) : Result TicketingOutcome :=
  match setupPinecone env with
  | Throw e => Throw e
  | Ok _ =>
      let agentManager := AIAgentManager.new in
      let agentManager :=
        AIAgentManager.addAgent "HR Input Processing" "categorization" agentManager in
      let agentManager :=
        AIAgentManager.addAgent "Pinecone Query" "knowledge_base" agentManager in
      let agentManager :=
        AIAgentManager.addAgent "LlamaIndex Query" "knowledge_base" agentManager in
      let ticketSystem := TicketManagementSystem.new in
      match createAgent env with
      | Throw error => Ok (failure error ticketSystem agentManager [])
      | Ok _ =>
          match payload req with
          | None => Ok (failure (parse_error req) ticketSystem agentManager [])
          | Some p =>
              let query := payload_query p in
              let employeeContext := payload_employeeContext p in
              match invoke (workflow env)
                      (initial_state query employeeContext (Some []))
                      agentManager with
              | Failed error _ agents tr => Ok (failure error ticketSystem agents tr)
              | Finished result agents tr =>
                  match final_response result with
                  | None =>
                      Ok (failure (undefined_property "toLowerCase")
                            ticketSystem agents tr)
                  | Some final =>
                      let '(ticketId, ticketSystem') :=
                        escalate final query (now env) ticketSystem in
                      Ok {| t_response := success result ticketId;
                            t_tickets := ticketSystem';
                            t_agents := agents; t_executed := tr |}
                  end
              end
          end
      end
  end.

End Enhanced.

(** ** Vocabulary of the properties *)

(** [mentions q kw]: the keyword occurs in the query up to letter case. *)
Definition mentions (q kw : string) : Prop :=
  exists a w b, q = a +:+ w +:+ b /\ toLowerCase w = kw.

(** One of the two keywords of a rule occurs. *)
Definition hits (q kw1 kw2 : string) : Prop :=
  mentions q kw1 \/ mentions q kw2.

(** The closed set of categories and the label each is returned as. *)
Inductive Category := POLICY | LEAVE | COMPENSATION | TRAINING | GENERAL.

Definition label (c : Category) : string :=
  match c with
  | POLICY => "POLICY"
  | LEAVE => "LEAVE"
  | COMPENSATION => "COMPENSATION"
  | TRAINING => "TRAINING"
  | GENERAL => "GENERAL"
  end.

(** The two retrievers of the full version, in configuration order. *)
Inductive Retriever := Pinecone | LlamaIndex.

Definition retrieve (r : Retriever) (env : Env) (q : option string)
    (w : Full.Instance) : string :=
  match r with
  | Pinecone => Full.PineconeQueryTool_call env q
  | LlamaIndex => fst (Full.LlamaIndexTool_call env q w)
  end.





(** The retrieval channels in configuration order, and the entries of them
    that hold a text. *)
Definition retrieval_channels : list (string * (State -> option string)) :=
  [("pinecone_result", pinecone_result); ("llamaindex_result", llamaindex_result)].

Definition retrieved (st : State) : list (string * string) :=
  omap (fun ch => v ← snd ch st; Some (fst ch, v)) retrieval_channels.

(** The keys of a response body, in order. *)
Definition keys (r : Response) : list string := map fst (responseBody r).

Definition CONTEXT_KEYS : gset string := {[ "department"; "role"; "tenure" ]}.

(** The ticket an escalation files for query [q] at time [n]. *)
Definition escalation_ticket (q : option string) (n : Z) : TicketManagementSystem.Ticket :=
  {| TicketManagementSystem.id := "TICKET-" +:+ string_of_Z n;
     TicketManagementSystem.description :=
       "Query requires human assistance: " +:+ interpolate q;
     TicketManagementSystem.status := "open";
     TicketManagementSystem.priority := "high";
     TicketManagementSystem.updates := [] |}.

(** The ids handed out are the keys of the map, and every stored ticket is
    open. *)
Definition tickets_inv (tickets : TicketManagementSystem.Tickets)
    (ids : list string) : Prop :=
  forall i,
    (i ∈ ids -> exists t, tickets !! i = Some t /\
                          TicketManagementSystem.status t = "open") /\
    (i ∉ ids -> tickets !! i = None).

(** The run a ticketing handler starts for a parsed payload. *)
Definition enhanced_run (env : Env) (p : Payload) : RunResult AIAgentManager.Agents :=
  invoke (Enhanced.workflow env)
    (initial_state (payload_query p) (payload_employeeContext p) (Some []))
    (AIAgentManager.addAgent "LlamaIndex Query" "knowledge_base"
       (AIAgentManager.addAgent "Pinecone Query" "knowledge_base"
          (AIAgentManager.addAgent "HR Input Processing" "categorization"
             AIAgentManager.new))).

Definition simplified_run (env : Env) (p : Payload) : RunResult AIAgentManager.Agents :=
  invoke (Simplified.workflow env)
    (initial_state (payload_query p) None None)
    (AIAgentManager.addAgent "Pinecone Query" "knowledge_base"
       (AIAgentManager.addAgent "HR Input Processing" "categorization"
          AIAgentManager.new)).

(** ** Sample collaborators and requests *)

Module Sample.

Definition leave_text : string := "Employees get 20 days annual leave.".

(** Every collaborator is up: the vector index holds a match, the engine
    answers with the empty text, the backend answers. *)
Definition env_ok : Env :=
  {| pinecone_query := fun _ =>
       Ok {| matches := Some [ {| metadata := Some {| text := Some leave_text |} |} ] |};
     fetch_documents := Ok tt;
     llama_initialize := Ok tt;
     llama_query := fun _ => Ok "";
     chain_invoke := fun _ => Ok "You have 20 days of annual leave.";
     setupPinecone := Ok tt;
     createAgent := Ok tt;
     now := 1700000000000 |}.

(** The vector index holds no match and the engine answers with the empty
    text; the backend suggests to contact HR. *)
Definition env_escalate : Env :=
  {| pinecone_query := fun _ => Ok {| matches := Some [] |};
     fetch_documents := Ok tt;
     llama_initialize := Ok tt;
     llama_query := fun _ => Ok "";
     chain_invoke := fun _ =>
       Ok "I do not have sufficient data. Please contact HR for more details.";
     setupPinecone := Ok tt;
     createAgent := Ok tt;
     now := 1700000000000 |}.

Definition quota : Error := {| name := "Error"; message := "quota exceeded" |}.
Definition timeout : Error := {| name := "Error"; message := "network timeout" |}.

(** The vector index, the document store, the engine and the backend are
    all down. *)
Definition env_down : Env :=
  {| pinecone_query := fun _ => Throw timeout;
     fetch_documents := Throw timeout;
     llama_initialize := Throw timeout;
     llama_query := fun _ => Throw timeout;
     chain_invoke := fun _ => Throw quota;
     setupPinecone := Ok tt;
     createAgent := Ok tt;
     now := 1700000000000 |}.

Definition fresh : Full.Instance := {| Full.hrCopilot := false; Full.index := false |}.

(** An instance that has served a request: the singleton is built. *)
Definition warm : Full.Instance := {| Full.hrCopilot := true; Full.index := false |}.

Definition ctx : EmployeeContext :=
  {[ "department" := Some "Engineering"; "role" := Some "Developer";
     "tenure" := Some "3 years" ]}.

Definition earlier : list Message :=
  [ {| role := "user"; content := Some "Hello" |};
    {| role := "assistant"; content := Some "Hi, how can I help?" |} ].

Definition post (q : option string) : Full.Request :=
  {| Full.method := "POST";
     Full.body := Some {| Full.body_query := q;
                          Full.body_employee_context := Some ctx;
                          Full.body_conversation_history := Some earlier |} |}.

Definition input (q : string) : State :=
  initial_state (Some q) (Some ctx) (Some earlier).

(** What [JSON.parse] throws on the empty text. *)
Definition not_json : Error :=
  {| name := "SyntaxError"; message := "Unexpected end of JSON input" |}.

Definition ask (q : string) (c : option EmployeeContext) : PayloadRequest :=
  {| payload := Some {| payload_query := Some q; payload_employeeContext := c |};
     parse_error := not_json |}.


End Sample.

(** ** The run of the full pipeline, step by step

    The states a run goes through when the steps are called directly in
    the fixed order: context, category, the two retrievals, synthesis. *)

Module Steps.

Definition after_context (input : State) : State :=
  apply_update input (SetEmployeeContext (employee_context input)).

Definition after_categorize (input : State) (c : string) : State :=
  apply_update (after_context input) (SetCategory c).

Definition after_pinecone (env : Env) (input : State) (c : string) : State :=
  apply_update (after_categorize input c)
    (SetPineconeResult (Full.PineconeQueryTool_call env (query input))).

Definition after_llamaindex (env : Env) (input : State) (c : string)
    (w : Full.Instance) : State :=
  apply_update (after_pinecone env input c)
    (SetLlamaindexResult (fst (Full.LlamaIndexTool_call env (query input) w))).

Definition after_respond (env : Env) (input : State) (c : string)
    (w : Full.Instance) (r : string) : State :=
  apply_update (after_llamaindex env input c w) (SetFinalResponse r).

Definition exchange (q r : option string) : list Message :=
  [ {| role := "user"; content := q |}; {| role := "assistant"; content := r |} ].

Definition after_history (env : Env) (input : State) (c : string)
    (w : Full.Instance) (r : string) (h : list Message) : State :=
  apply_update (after_respond env input c w r)
    (SetConversationHistory (h ++ exchange (query input) (Some r))).

(** The nodes up to synthesis, with the state each is handed. *)
Definition upto_respond (env : Env) (input : State) (c : string)
    (w : Full.Instance) : Trace :=
  [ ("fetch_employee_context", input);
    ("categorize", after_context input);
    ("pinecone_query", after_categorize input c);
    ("llamaindex_query", after_pinecone env input c);
    ("respond", after_llamaindex env input c w) ].

Definition run (env : Env) (input : State) (w : Full.Instance)
    : RunResult Full.Instance :=
  match Full.HRInputProcessingTool_call (query input) with
  | Throw e =>
      Failed e (after_context input) w
        [ ("fetch_employee_context", input); ("categorize", after_context input) ]
  | Ok c =>
      let w' := snd (Full.LlamaIndexTool_call env (query input) w) in
      match chain_invoke env (after_llamaindex env input c w) with
      | Throw e =>
          Failed e (after_llamaindex env input c w) w' (upto_respond env input c w)
      | Ok r =>
          let tr := upto_respond env input c w ++
                    [ ("update_conversation_history", after_respond env input c w r) ] in
          match conversation_history input with
          | None =>
              Failed (not_iterable "state.conversation_history")
                (after_respond env input c w r) w' tr
          | Some h => Finished (after_history env input c w r h) w' tr
          end
      end
  end.

End Steps.
(** ** Vocabulary of the further properties *)

(** The nodes of each workflow in the order of its edges. *)
Definition FULL_ORDER : list string :=
  [ "fetch_employee_context"; "categorize"; "pinecone_query"; "llamaindex_query";
    "respond"; "update_conversation_history" ].

Definition SIMPLIFIED_ORDER : list string :=
  [ "categorize"; "pinecone_query"; "respond" ].

(** The names of the nodes a run went through. *)
Definition path {W : Type} (r : RunResult W) : list string := map fst (visited r).

(** A history of calls on one agent manager. *)
Module AgentCalls.

Inductive Call :=
  | AddAgent (name type : string)
  | UpdateAgentMetrics (name : string) (metrics : gmap string Z).

Definition step (agents : AIAgentManager.Agents) (c : Call) : AIAgentManager.Agents :=
  match c with
  | AddAgent name type => AIAgentManager.addAgent name type agents
  | UpdateAgentMetrics name metrics =>
      AIAgentManager.updateAgentMetrics name metrics agents
  end.

Definition run (calls : list Call) (agents : AIAgentManager.Agents)
    : AIAgentManager.Agents :=
  foldl step agents calls.

(** The names registered by the calls. *)
Definition added (calls : list Call) : list string :=
  omap (fun c => match c with AddAgent name _ => Some name | _ => None end) calls.

End AgentCalls.

(** The agent manager both ticketing handlers start from, and the record of
    an agent that has processed queries. *)
Definition enhanced_agents : AIAgentManager.Agents :=
  AIAgentManager.addAgent "LlamaIndex Query" "knowledge_base"
    (AIAgentManager.addAgent "Pinecone Query" "knowledge_base"
       (AIAgentManager.addAgent "HR Input Processing" "categorization"
          AIAgentManager.new)).

Definition busy_agent (type : string) : AIAgentManager.Agent :=
  {| AIAgentManager.type := type; AIAgentManager.status := "active";
     AIAgentManager.metrics := AIAgentManager.queries_processed |}.

Definition idle_agent (type : string) : AIAgentManager.Agent :=
  {| AIAgentManager.type := type; AIAgentManager.status := "active";
     AIAgentManager.metrics := ∅ |}.

(** The agents after a run that got past the classifier. *)
Definition busy_agents : AIAgentManager.Agents :=
  {[ "HR Input Processing" := busy_agent "categorization";
     "Pinecone Query" := busy_agent "knowledge_base";
     "LlamaIndex Query" := busy_agent "knowledge_base" ]}.

(** Every registered agent is active; nothing else is known. *)
Definition agents_inv (agents : AIAgentManager.Agents) (names : list string) : Prop :=
  forall n,
    (n ∈ names -> exists a, agents !! n = Some a /\ AIAgentManager.status a = "active") /\
    (n ∉ names -> agents !! n = None).

(** The in-memory state a run leaves behind. *)
Definition world_of {W : Type} (r : RunResult W) : W :=
  match r with Finished _ w _ | Failed _ _ w _ => w end.

(** The updates of a ticket after the given ones were appended. *)
Definition with_update (t : TicketManagementSystem.Ticket) (now : Z) (update : string)
    : TicketManagementSystem.Ticket :=
  {| TicketManagementSystem.id := TicketManagementSystem.id t;
     TicketManagementSystem.description := TicketManagementSystem.description t;
     TicketManagementSystem.status := TicketManagementSystem.status t;
     TicketManagementSystem.priority := TicketManagementSystem.priority t;
     TicketManagementSystem.updates :=
       TicketManagementSystem.updates t ++ [(now, update)] |}.

(** The statuses a handler of the full version answers with. *)
Definition FULL_STATUSES : list Z := [200; 405; 500]%Z.

(** The module instance after the handler of the full version has served
    the requests in order, each with the collaborators it met. *)
Definition serve (calls : list (Env * Full.Request)) (w : Full.Instance)
    : Full.Instance :=
  foldl (fun w c => Full.instance (Full.handler (fst c) (snd c) w)) w calls.

(** * Properties *)

(** ** Strings *)

Lemma lower_code_idem c : lower_code (lower_code c) = lower_code c.
Proof. destruct c as [[] [] [] [] [] [] [] []]; reflexivity. Qed.

Lemma lower_code_whitespace c :
  is_whitespace c = true -> lower_code c = c.
Proof.
  destruct c as [[] [] [] [] [] [] [] []]; simpl; intros H;
    first [ reflexivity | discriminate H ].
Qed.

Lemma toLowerCase_app a b :
  toLowerCase (a +:+ b) = toLowerCase a +:+ toLowerCase b.
Proof.
  induction a as [|c a IH]; simpl; [reflexivity|]. now rewrite IH.
Qed.

Lemma toLowerCase_idem s : toLowerCase (toLowerCase s) = toLowerCase s.
Proof.
  induction s as [|c s IH]; simpl; [reflexivity|].
  now rewrite lower_code_idem, IH.
Qed.

(** [startsWith] is exactly "has [t] as a prefix". *)
Lemma startsWith_spec s t :
  startsWith s t = true <-> exists b, s = t +:+ b.
Proof.
  revert s. induction t as [|c t IH]; intros s; simpl.
  - split; [intros _; now exists s | reflexivity].
  - destruct s as [|a s].
    + split; [discriminate | intros [b Hb]; discriminate Hb].
    + destruct (ascii_dec a c) as [->|Hne].
      * rewrite IH. split; intros [b Hb]; exists b.
        -- now rewrite Hb.
        -- now injection Hb.
      * split; [discriminate|]. intros [b Hb]. injection Hb as Hac _.
        contradiction.
Qed.

(** [includes] is exactly "has [t] as a substring". *)
Lemma includes_spec s t :
  includes s t = true <-> exists a b, s = a +:+ t +:+ b.
Proof.
  induction s as [|c s IH].
  - simpl. rewrite orb_false_r, startsWith_spec. split.
    + intros [b Hb]. now exists "", b.
    + intros [a [b Hab]]. destruct a; [now exists b | discriminate Hab].
  - cbn [includes]. rewrite orb_true_iff, startsWith_spec, IH. split.
    + intros [[b Hb] | [a [b Hab]]].
      * now exists "", b.
      * exists (String c a), b. simpl. now rewrite Hab.
    + intros [a [b Hab]]. destruct a as [|c' a].
      * left. now exists b.
      * right. simpl in Hab. injection Hab as _ Hs. now exists a, b.
Qed.

(** A prefix of the lower-cased text comes from a prefix of the text. *)
Lemma lower_split t : forall s b,
  toLowerCase s = t +:+ b ->
  exists w r, s = w +:+ r /\ toLowerCase w = t /\ toLowerCase r = b.
Proof.
  induction t as [|c t IH]; intros s b H.
  - exists "", s. now simpl in *.
  - destruct s as [|a s]; [discriminate H|].
    simpl in H. injection H as Hc Hs.
    destruct (IH _ _ Hs) as (w & r & -> & Hw & Hr).
    exists (String a w), r. simpl. now rewrite Hc, Hw.
Qed.

(** The test [s.toLowerCase().includes(kw)] is case-insensitive occurrence. *)
Lemma includes_lower_mentions q kw :
  includes (toLowerCase q) kw = true <-> mentions q kw.
Proof.
  rewrite includes_spec. unfold mentions. split.
  - intros (a' & b' & H).
    destruct (lower_split _ _ _ H) as (a & r & -> & Ha & Hr).
    destruct (lower_split _ _ _ Hr) as (w & b & -> & Hw & Hb).
    now exists a, w, b.
  - intros (a & w & b & -> & Hw).
    exists (toLowerCase a), (toLowerCase b).
    now rewrite !toLowerCase_app, Hw.
Qed.

(** A blank text contains no word that starts with a visible character. *)
Lemma blank_includes_false q c kw :
  all_whitespace q = true -> is_whitespace c = false ->
  includes (toLowerCase q) (String c kw) = false.
Proof.
  intros Hq Hc. induction q as [|a q IH]; [reflexivity|].
  simpl in Hq. apply andb_true_iff in Hq as [Ha Hq].
  cbn [toLowerCase includes startsWith].
  rewrite (lower_code_whitespace _ Ha).
  destruct (ascii_dec a c) as [->|_]; [congruence|].
  simpl. now apply IH.
Qed.

(** ** The classifier *)

(** The tests of the classifier, read as case-insensitive occurrence. *)
Lemma rule_test_hits q kw1 kw2 :
  includes (toLowerCase q) kw1 || includes (toLowerCase q) kw2 = true
  <-> hits q kw1 kw2.
Proof.
  unfold hits. rewrite orb_true_iff, !includes_lower_mentions. reflexivity.
Qed.

Lemma rule_test_misses q kw1 kw2 :
  includes (toLowerCase q) kw1 || includes (toLowerCase q) kw2 = false
  <-> ~ hits q kw1 kw2.
Proof.
  rewrite <- rule_test_hits. destruct (_ || _); split; intros H;
    first [reflexivity | discriminate | congruence | exfalso; now apply H].
Qed.

Lemma label_inj c c' : label c = label c' -> c = c'.
Proof. destruct c, c'; simpl; intros H; first [reflexivity | discriminate H]. Qed.

(** The full classifier follows the four rules in order. *)
Lemma full_classifier_rules q :
  (hits q "policy" "handbook" ->
     Full.HRInputProcessingTool_call (Some q) = Ok (label POLICY)) /\
  (~ hits q "policy" "handbook" -> hits q "leave" "vacation" ->
     Full.HRInputProcessingTool_call (Some q) = Ok (label LEAVE)) /\
  (~ hits q "policy" "handbook" -> ~ hits q "leave" "vacation" ->
   hits q "salary" "compensation" ->
     Full.HRInputProcessingTool_call (Some q) = Ok (label COMPENSATION)) /\
  (~ hits q "policy" "handbook" -> ~ hits q "leave" "vacation" ->
   ~ hits q "salary" "compensation" -> hits q "training" "development" ->
     Full.HRInputProcessingTool_call (Some q) = Ok (label TRAINING)) /\
  (~ hits q "policy" "handbook" -> ~ hits q "leave" "vacation" ->
   ~ hits q "salary" "compensation" -> ~ hits q "training" "development" ->
     Full.HRInputProcessingTool_call (Some q) = Ok (label GENERAL)).
Proof.
  unfold Full.HRInputProcessingTool_call; cbv zeta.
  repeat split; intros;
    repeat match goal with
           | H : hits _ _ _ |- _ => apply rule_test_hits in H; rewrite H
           | H : ~ hits _ _ _ |- _ => apply rule_test_misses in H; rewrite H
           end; reflexivity.
Qed.

(** The three-rule classifier follows its rules in order and has no
    TRAINING rule. *)
Lemma simplified_classifier_rules q :
  (hits q "policy" "handbook" ->
     Simplified.HRInputProcessingTool_call (Some q) = Ok (label POLICY)) /\
  (~ hits q "policy" "handbook" -> hits q "leave" "vacation" ->
     Simplified.HRInputProcessingTool_call (Some q) = Ok (label LEAVE)) /\
  (~ hits q "policy" "handbook" -> ~ hits q "leave" "vacation" ->
   hits q "salary" "compensation" ->
     Simplified.HRInputProcessingTool_call (Some q) = Ok (label COMPENSATION)) /\
  (~ hits q "policy" "handbook" -> ~ hits q "leave" "vacation" ->
   ~ hits q "salary" "compensation" ->
     Simplified.HRInputProcessingTool_call (Some q) = Ok (label GENERAL)).
Proof.
  unfold Simplified.HRInputProcessingTool_call; cbv zeta.
  repeat split; intros;
    repeat match goal with
           | H : hits _ _ _ |- _ => apply rule_test_hits in H; rewrite H
           | H : ~ hits _ _ _ |- _ => apply rule_test_misses in H; rewrite H
           end; reflexivity.
Qed.

(** Every query gets one label of the closed set. *)
Lemma full_classifier_total q :
  exists c, Full.HRInputProcessingTool_call (Some q) = Ok (label c) /\
    forall c', Full.HRInputProcessingTool_call (Some q) = Ok (label c') -> c' = c.
Proof.
  unfold Full.HRInputProcessingTool_call; cbv zeta.
  repeat match goal with
         | |- context [if ?b then _ else _] => destruct b
         end;
    [exists POLICY | exists LEAVE | exists COMPENSATION | exists TRAINING
    | exists GENERAL];
    (split; [reflexivity | intros c' H; injection H as H; symmetry;
                           now apply label_inj]).
Qed.

Lemma simplified_classifier_total q :
  exists c, Simplified.HRInputProcessingTool_call (Some q) = Ok (label c) /\
    c <> TRAINING /\
    forall c', Simplified.HRInputProcessingTool_call (Some q) = Ok (label c') -> c' = c.
Proof.
  unfold Simplified.HRInputProcessingTool_call; cbv zeta.
  repeat match goal with
         | |- context [if ?b then _ else _] => destruct b
         end;
    [exists POLICY | exists LEAVE | exists COMPENSATION | exists GENERAL];
    (split; [reflexivity | split; [discriminate |
       intros c' H; injection H as H; symmetry; now apply label_inj]]).
Qed.

(** A blank query matches no rule. *)
Lemma blank_is_general q :
  all_whitespace q = true ->
  Full.HRInputProcessingTool_call (Some q) = Ok (label GENERAL) /\
  Simplified.HRInputProcessingTool_call (Some q) = Ok (label GENERAL).
Proof.
  intros Hq.
  unfold Full.HRInputProcessingTool_call, Simplified.HRInputProcessingTool_call;
    cbv zeta.
  rewrite !(blank_includes_false q) by (assumption || reflexivity).
  split; reflexivity.
Qed.

(** C1 (as amended): for every query string the full classifier returns
    exactly one label of the closed set {POLICY, LEAVE, COMPENSATION,
    TRAINING, GENERAL}, chosen by case-insensitive substring matching with
    first-match-wins precedence in the order POLICY, LEAVE, COMPENSATION,
    TRAINING; a query matching no keyword, and so every empty or blank
    query, yields GENERAL.  The three-rule classifier of the simplified
    version follows the first three rules only: it never answers TRAINING,
    and a query that matches none of its three rules yields GENERAL. *)
Theorem classify_first_match_wins (q : string) :
  (exists c, Full.HRInputProcessingTool_call (Some q) = Ok (label c) /\
     forall c', Full.HRInputProcessingTool_call (Some q) = Ok (label c') -> c' = c) /\
  (hits q "policy" "handbook" ->
     Full.HRInputProcessingTool_call (Some q) = Ok "POLICY") /\
  (~ hits q "policy" "handbook" -> hits q "leave" "vacation" ->
     Full.HRInputProcessingTool_call (Some q) = Ok "LEAVE") /\
  (~ hits q "policy" "handbook" -> ~ hits q "leave" "vacation" ->
   hits q "salary" "compensation" ->
     Full.HRInputProcessingTool_call (Some q) = Ok "COMPENSATION") /\
  (~ hits q "policy" "handbook" -> ~ hits q "leave" "vacation" ->
   ~ hits q "salary" "compensation" -> hits q "training" "development" ->
     Full.HRInputProcessingTool_call (Some q) = Ok "TRAINING") /\
  (~ hits q "policy" "handbook" -> ~ hits q "leave" "vacation" ->
   ~ hits q "salary" "compensation" -> ~ hits q "training" "development" ->
     Full.HRInputProcessingTool_call (Some q) = Ok "GENERAL") /\
  (all_whitespace q = true ->
     Full.HRInputProcessingTool_call (Some q) = Ok "GENERAL" /\
     Simplified.HRInputProcessingTool_call (Some q) = Ok "GENERAL") /\
  (exists c, Simplified.HRInputProcessingTool_call (Some q) = Ok (label c) /\
     c <> TRAINING /\
     forall c', Simplified.HRInputProcessingTool_call (Some q) = Ok (label c') -> c' = c) /\
  (hits q "policy" "handbook" ->
     Simplified.HRInputProcessingTool_call (Some q) = Ok "POLICY") /\
  (~ hits q "policy" "handbook" -> hits q "leave" "vacation" ->
     Simplified.HRInputProcessingTool_call (Some q) = Ok "LEAVE") /\
  (~ hits q "policy" "handbook" -> ~ hits q "leave" "vacation" ->
   hits q "salary" "compensation" ->
     Simplified.HRInputProcessingTool_call (Some q) = Ok "COMPENSATION") /\
  (~ hits q "policy" "handbook" -> ~ hits q "leave" "vacation" ->
   ~ hits q "salary" "compensation" ->
     Simplified.HRInputProcessingTool_call (Some q) = Ok "GENERAL").
Proof.
  destruct (full_classifier_rules q) as (F1 & F2 & F3 & F4 & F5).
  destruct (simplified_classifier_rules q) as (S1 & S2 & S3 & S4).
  split; [apply full_classifier_total|].
  do 5 (split; [assumption|]).
  split; [apply blank_is_general|].
  split; [apply simplified_classifier_total|].
  repeat split; assumption.
Qed.

(** A query that mentions leave in capitals and no policy word is a LEAVE
    query for both classifiers. *)
Lemma classify_first_match_wins_witness :
  Full.HRInputProcessingTool_call (Some "How much VACATION is left?") = Ok "LEAVE" /\
  Simplified.HRInputProcessingTool_call (Some "How much VACATION is left?") = Ok "LEAVE".
Proof.
  assert (Hno : ~ hits "How much VACATION is left?" "policy" "handbook")
    by (apply rule_test_misses; reflexivity).
  assert (Hyes : hits "How much VACATION is left?" "leave" "vacation").
  { right. exists "How much ", "VACATION", " is left?". split; reflexivity. }
  destruct (classify_first_match_wins "How much VACATION is left?")
    as (_ & _ & HF & _ & _ & _ & _ & _ & _ & HS & _).
  split; [exact (HF Hno Hyes) | exact (HS Hno Hyes)].
Defined.

(** Counterexample to C1 as stated, on the simplified classifier: a query
    about training is a TRAINING query for the full classifier and a
    GENERAL one for the simplified classifier. *)
Lemma classify_training_counterexample :
  Full.HRInputProcessingTool_call (Some "Is there any training next week?")
    = Ok "TRAINING" /\
  Simplified.HRInputProcessingTool_call (Some "Is there any training next week?")
    = Ok "GENERAL" /\
  includes (toLowerCase "Is there any training next week?") "training" = true.
Proof. repeat split; reflexivity. Qed.

(** The classifier of the enhanced version is the three-rule one. *)
Lemma enhanced_classifier_is_simplified q :
  Enhanced.HRInputProcessingTool_call q = Simplified.HRInputProcessingTool_call q.
Proof. reflexivity. Qed.

(** A missing query is not a string: the classifier throws. *)
Lemma classify_undefined :
  Full.HRInputProcessingTool_call None = Throw (undefined_property "toLowerCase").
Proof. reflexivity. Qed.

(** ** The graph runs its nodes in the fixed order *)

Ltac run_graph :=
  unfold invoke;
  repeat (
  unfold Full.employeeContextNode, Full.categorizeNode, Full.pineconeNode,
    Full.llamaindexNode, Full.responseNode, Full.conversationHistoryNode,
    Full.find_call, Full.Tool_call,
    Simplified.categorizeNode, Simplified.pineconeNode, Simplified.responseNode,
    Simplified.find_call, Simplified.Tool_call,
    Enhanced.employeeContextNode, Enhanced.categorizeNode, Enhanced.pineconeNode,
    Enhanced.llamaindexNode, Enhanced.responseNode,
    Enhanced.conversationHistoryNode, Enhanced.find_call, Enhanced.Tool_call;
  cbn -[Full.LlamaIndexTool_call Full.PineconeQueryTool_call
        Full.HRInputProcessingTool_call Simplified.HRInputProcessingTool_call
        Enhanced.HRInputProcessingTool_call queryPinecone
        Enhanced.LlamaIndexTool_call Enhanced.rebuild
        AIAgentManager.updateAgentMetrics]).

Lemma full_invoke_steps env input w :
  invoke (Full.workflow env) input w = Steps.run env input w.
Proof.
  unfold Steps.run, Steps.after_history, Steps.upto_respond, Steps.after_respond,
    Steps.after_llamaindex, Steps.after_pinecone, Steps.after_categorize,
    Steps.after_context.
  run_graph.
  destruct (Full.HRInputProcessingTool_call (query input)) as [c|e];
    run_graph; [|reflexivity].
  destruct (Full.LlamaIndexTool_call env (query input) w) as [l w'].
  run_graph.
  destruct (chain_invoke env _) as [r|e]; run_graph; [|reflexivity].
  destruct (conversation_history input) as [h|]; reflexivity.
Qed.

(** ** Retrievers *)










(** ** Synthesis and its failure *)

(** The synthesis node is entered at most once, with both retrieval
    channels filled. *)
Lemma respond_entry env input w st :
  In ("respond", st) (visited (Steps.run env input w)) ->
  exists c, Full.HRInputProcessingTool_call (query input) = Ok c /\
            st = Steps.after_llamaindex env input c w.
Proof.
  unfold Steps.run.
  destruct (Full.HRInputProcessingTool_call (query input)) as [c|e].
  - intros H. exists c. split; [reflexivity|].
    assert (Hin : In ("respond", st)
                    (Steps.upto_respond env input c w) \/
                  exists r, In ("respond", st)
                    [("update_conversation_history",
                      Steps.after_respond env input c w r)]).
    { destruct (chain_invoke env _) as [r|e]; [|now left].
      assert (H' : In ("respond", st)
                (Steps.upto_respond env input c w ++
                 [("update_conversation_history",
                   Steps.after_respond env input c w r)]))
        by (destruct (conversation_history input); exact H).
      apply in_app_or in H'. destruct H' as [H'|H']; [now left | right; eauto]. }
    destruct Hin as [Hin | [r Hin]].
    + unfold Steps.upto_respond in Hin. simpl in Hin.
      destruct Hin as [Hin|[Hin|[Hin|[Hin|[Hin|[]]]]]];
        try discriminate Hin. now injection Hin.
    + simpl in Hin. destruct Hin as [Hin|[]]. discriminate Hin.
  - simpl. intros [H|[H|[]]]; discriminate H.
Qed.

(** C3: whenever the generative-backend call of the synthesis step throws,
    the error leaves the pipeline and the handler answers with status 500
    and the message of that error; the history-update node never runs, and
    the conversation history in the state of the failed run is the one the
    caller supplied. *)
Theorem synthesis_failure_is_fatal (env : Env) (req : Full.Request)
    (w : Full.Instance) (st : State) (e : Error) :
  In ("respond", st) (Full.executed (Full.handler env req w)) ->
  chain_invoke env st = Throw e ->
  Full.response (Full.handler env req w) = Full.internalServerError e /\
  statusCode (Full.response (Full.handler env req w)) = 500%Z /\
  field "error" (Full.response (Full.handler env req w)) = Some (VStr (message e)) /\
  field "final_response" (Full.response (Full.handler env req w)) = None /\
  ran "update_conversation_history" (Full.executed (Full.handler env req w)) = false /\
  conversation_history st = (b ← Full.body req; Full.body_conversation_history b).
Proof.
  unfold Full.handler.
  destruct (negb (String.eqb (Full.method req) "POST")); [intros []|].
  destruct (Full.initialize env w) as [[[]|e0] w1]; [|intros []].
  destruct (Full.body req) as [b|]; [|intros []].
  rewrite full_invoke_steps.
  set (input := initial_state _ _ _).
  intros Hin Hthrow.
  assert (Hvis : In ("respond", st) (visited (Steps.run env input w1)))
    by (destruct (Steps.run env input w1); exact Hin).
  destruct (respond_entry _ _ _ _ Hvis) as (c & Hc & ->).
  unfold Steps.run. rewrite Hc, Hthrow. cbn.
  repeat split; reflexivity.
Qed.

(** With the backend out of quota the caller gets the 500 answer that
    carries "quota exceeded". *)
Lemma synthesis_failure_is_fatal_witness :
  statusCode (Full.response (Full.handler Sample.env_down
     (Sample.post (Some "What is our leave policy?")) Sample.fresh)) = 500%Z /\
  field "error" (Full.response (Full.handler Sample.env_down
     (Sample.post (Some "What is our leave policy?")) Sample.fresh))
    = Some (VStr "quota exceeded").
Proof.
  pose proof (synthesis_failure_is_fatal Sample.env_down
    (Sample.post (Some "What is our leave policy?")) Sample.fresh
    (Steps.after_llamaindex Sample.env_down
       (Sample.input "What is our leave policy?") "POLICY" Sample.fresh)
    Sample.quota) as H.
  destruct H as (_ & H500 & Herr & _).
  - vm_compute. do 4 right. left. reflexivity.
  - reflexivity.
  - split; [exact H500 | exact Herr].
Defined.

(** ** History *)

(** What a finished run of the full pipeline looks like. *)
Lemma full_finished env input w :
  succeeded (invoke (Full.workflow env) input w) = true ->
  exists c r h,
    Full.HRInputProcessingTool_call (query input) = Ok c /\
    chain_invoke env (Steps.after_llamaindex env input c w) = Ok r /\
    conversation_history input = Some h /\
    invoke (Full.workflow env) input w =
      Finished (Steps.after_history env input c w r h)
        (snd (Full.LlamaIndexTool_call env (query input) w))
        (Steps.upto_respond env input c w ++
           [("update_conversation_history", Steps.after_respond env input c w r)]).
Proof.
  rewrite full_invoke_steps. unfold Steps.run.
  destruct (Full.HRInputProcessingTool_call (query input)) as [c|e];
    [|discriminate].
  destruct (chain_invoke env _) as [r|e] eqn:Hr; [|discriminate].
  destruct (conversation_history input) as [h|]; [|discriminate].
  intros _. now exists c, r, h.
Qed.

(** The history node appends the exchange whenever there is a history. *)
Lemma history_node_appends st h :
  conversation_history st = Some h ->
  (forall w, Full.conversationHistoryNode st w =
     (Ok (SetConversationHistory
            (h ++ Steps.exchange (query st) (final_response st))), w)) /\
  (forall a, Enhanced.conversationHistoryNode st a =
     (Ok (SetConversationHistory
            (h ++ Steps.exchange (query st) (final_response st))), a)).
Proof.
  intros Hh. unfold Full.conversationHistoryNode, Enhanced.conversationHistoryNode.
  rewrite Hh. split; reflexivity.
Qed.

(** C4: for every successful run with input history [h] and query [q] there
    is a synthesized response [r] such that the history of the final state
    is exactly [h] followed by the user entry for [q] and the assistant
    entry for [r]: two entries more, in that order, the earlier ones
    unchanged; and on a state that holds [h], [q] and [r] the history node
    of either version returns that list without failing. *)
Theorem update_history_appends (env : Env) (input : State) (w : Full.Instance)
    (h : list Message) (q : string) :
  succeeded (invoke (Full.workflow env) input w) = true ->
  conversation_history input = Some h ->
  query input = Some q ->
  exists r,
    final_response (final_state (invoke (Full.workflow env) input w)) = Some r /\
    conversation_history (final_state (invoke (Full.workflow env) input w)) =
      Some (h ++ [ {| role := "user"; content := Some q |};
                   {| role := "assistant"; content := Some r |} ]) /\
    length (h ++ [ {| role := "user"; content := Some q |};
                   {| role := "assistant"; content := Some r |} ]) = length h + 2 /\
    take (length h) (h ++ [ {| role := "user"; content := Some q |};
                            {| role := "assistant"; content := Some r |} ]) = h /\
    (forall st w', conversation_history st = Some h -> query st = Some q ->
       final_response st = Some r ->
       Full.conversationHistoryNode st w' =
         (Ok (SetConversationHistory
                (h ++ [ {| role := "user"; content := Some q |};
                        {| role := "assistant"; content := Some r |} ])), w')) /\
    (forall st a, conversation_history st = Some h -> query st = Some q ->
       final_response st = Some r ->
       Enhanced.conversationHistoryNode st a =
         (Ok (SetConversationHistory
                (h ++ [ {| role := "user"; content := Some q |};
                        {| role := "assistant"; content := Some r |} ])), a)).
Proof.
  intros Hok Hh Hq.
  destruct (full_finished _ _ _ Hok) as (c & r & h' & Hc & Hr & Hh' & ->).
  rewrite Hh in Hh'. injection Hh' as <-.
  exists r. cbn. rewrite Hq.
  split; [reflexivity|]. split; [reflexivity|].
  split; [rewrite length_app; reflexivity|].
  split; [apply take_app_length|].
  split; intros st x Hsh Hsq Hsr.
  - destruct (history_node_appends st h Hsh) as [H _]. rewrite H, Hsq, Hsr.
    reflexivity.
  - destruct (history_node_appends st h Hsh) as [_ H]. rewrite H, Hsq, Hsr.
    reflexivity.
Qed.

(** A run on a two-entry history ends with four entries, the last two being
    the new exchange. *)
Lemma update_history_appends_witness :
  exists r,
    conversation_history
      (final_state (invoke (Full.workflow Sample.env_ok)
                      (Sample.input "What is our leave policy?") Sample.fresh)) =
    Some (Sample.earlier ++
          [ {| role := "user"; content := Some "What is our leave policy?" |};
            {| role := "assistant"; content := Some r |} ]).
Proof.
  destruct (update_history_appends Sample.env_ok
              (Sample.input "What is our leave policy?") Sample.fresh
              Sample.earlier "What is our leave policy?")
    as (r & _ & H & _); [reflexivity | reflexivity | reflexivity |].
  exists r. exact H.
Defined.

(** Without a history to spread the node throws: the step relies on the
    caller to supply one. *)
Lemma history_node_needs_history st w :
  conversation_history st = None ->
  Full.conversationHistoryNode st w =
    (Throw (not_iterable "state.conversation_history"), w).
Proof. intros H. unfold Full.conversationHistoryNode. now rewrite H. Qed.

(** ** Retrieved results *)

(** C5: in every run, the state handed to the synthesis step holds exactly
    one retrieved entry per configured retriever, in configuration order,
    the Pinecone result first and the LlamaIndex result second, each a
    string (the text or a sentinel the retriever returned); the two
    retrieval nodes ran before it, in that order. *)
Theorem retrieved_complete_at_synthesis (env : Env) (input : State)
    (w : Full.Instance) (st : State) :
  In ("respond", st) (visited (invoke (Full.workflow env) input w)) ->
  retrieved st =
    [ ("pinecone_result", retrieve Pinecone env (query input) w);
      ("llamaindex_result", retrieve LlamaIndex env (query input) w) ] /\
  length (retrieved st) = length retrieval_channels /\
  exists before after,
    visited (invoke (Full.workflow env) input w) = before ++ ("respond", st) :: after /\
    map fst before =
      [ "fetch_employee_context"; "categorize"; "pinecone_query"; "llamaindex_query" ].
Proof.
  rewrite full_invoke_steps. intros Hin.
  destruct (respond_entry _ _ _ _ Hin) as (c & Hc & ->).
  split; [reflexivity|]. split; [reflexivity|].
  unfold Steps.run. rewrite Hc.
  exists [ ("fetch_employee_context", input);
           ("categorize", Steps.after_context input);
           ("pinecone_query", Steps.after_categorize input c);
           ("llamaindex_query", Steps.after_pinecone env input c) ].
  destruct (chain_invoke env _) as [r|e].
  - exists [("update_conversation_history", Steps.after_respond env input c w r)].
    split; [|reflexivity]. destruct (conversation_history input); reflexivity.
  - exists []. split; reflexivity.
Qed.

(** With both sources down the synthesis step still sees two entries, the
    two error sentinels. *)
Lemma retrieved_complete_at_synthesis_witness :
  retrieved (Steps.after_llamaindex Sample.env_down (Sample.input "leave")
               "LEAVE" Sample.fresh) =
    [ ("pinecone_result", PINECONE_ERROR);
      ("llamaindex_result", LLAMAINDEX_ERROR) ].
Proof.
  destruct (retrieved_complete_at_synthesis Sample.env_down (Sample.input "leave")
              Sample.fresh
              (Steps.after_llamaindex Sample.env_down (Sample.input "leave")
                 "LEAVE" Sample.fresh)) as (H & _).
  - vm_compute. do 4 right. left. reflexivity.
  - exact H.
Defined.

(** ** Input errors *)

Lemma full_missing_query env input w :
  query input = None ->
  invoke (Full.workflow env) input w =
    Failed (undefined_property "toLowerCase") (Steps.after_context input) w
      [ ("fetch_employee_context", input); ("categorize", Steps.after_context input) ].
Proof.
  intros Hq. rewrite full_invoke_steps. unfold Steps.run. now rewrite Hq.
Qed.

(** C6 (as amended): a request whose method is not POST is answered at once
    with 405 and nothing else happens: the singleton is not built and no
    node runs.  A POST body without the query field is not rejected up
    front: the pipeline starts, the classifier throws on the missing query,
    and the handler answers 500; only the context and categorize nodes ran,
    so no retriever and no generative backend was invoked. *)
Theorem input_errors (env : Env) (req : Full.Request) (w : Full.Instance) :
  (Full.method req <> "POST" ->
     Full.handler env req w =
       {| Full.response := Full.methodNotAllowed; Full.instance := w;
          Full.executed := [] |} /\
     statusCode (Full.response (Full.handler env req w)) = 405%Z) /\
  (forall b, Full.method req = "POST" -> Full.body req = Some b ->
     Full.body_query b = None -> fst (Full.initialize env w) = Ok tt ->
     statusCode (Full.response (Full.handler env req w)) = 500%Z /\
     field "error" (Full.response (Full.handler env req w)) =
       Some (VStr "Cannot read properties of undefined (reading 'toLowerCase')") /\
     map fst (Full.executed (Full.handler env req w)) =
       [ "fetch_employee_context"; "categorize" ]).
Proof.
  split.
  - intros Hm. unfold Full.handler.
    apply String.eqb_neq in Hm. rewrite Hm. split; reflexivity.
  - intros b Hm Hb Hq Hi. unfold Full.handler.
    rewrite Hm, Hb. cbn [String.eqb Ascii.eqb Bool.eqb negb].
    destruct (Full.initialize env w) as [[[]|e] w1]; [|discriminate Hi].
    rewrite full_missing_query by exact Hq. repeat split; reflexivity.
Qed.

(** A GET request gets the 405 answer. *)
Lemma input_errors_witness :
  statusCode (Full.response (Full.handler Sample.env_ok
     {| Full.method := "GET"; Full.body := None |} Sample.fresh)) = 405%Z /\
  statusCode (Full.response (Full.handler Sample.env_ok
     (Sample.post None) Sample.fresh)) = 500%Z.
Proof.
  split.
  - apply (input_errors Sample.env_ok {| Full.method := "GET"; Full.body := None |}
             Sample.fresh). discriminate.
  - eapply (input_errors Sample.env_ok (Sample.post None) Sample.fresh);
      reflexivity.
Defined.

(** Counterexample to C6 as stated, on a POST body without a query: the
    answer is 500, not a 4xx one, and two nodes of the pipeline ran. *)
Lemma missing_query_counterexample :
  statusCode (Full.response (Full.handler Sample.env_ok (Sample.post None)
                               Sample.fresh)) = 500%Z /\
  map fst (Full.executed (Full.handler Sample.env_ok (Sample.post None)
                            Sample.fresh)) =
    [ "fetch_employee_context"; "categorize" ] /\
  Full.body_query
    {| Full.body_query := None; Full.body_employee_context := Some Sample.ctx;
       Full.body_conversation_history := Some Sample.earlier |} = None.
Proof. repeat split; reflexivity. Qed.

(** ** The ticketing versions *)

(** What a finished run of the enhanced pipeline looks like. *)
Lemma enhanced_finished env input agents :
  succeeded (invoke (Enhanced.workflow env) input agents) = true ->
  exists ctx c r h,
    employee_context input = Some ctx /\
    Enhanced.HRInputProcessingTool_call (query input) = Ok c /\
    conversation_history input = Some h /\
    final_state (invoke (Enhanced.workflow env) input agents) =
      {| query := query input; category := Some c;
         pinecone_result := Some (queryPinecone env (query input));
         llamaindex_result := Some (Enhanced.LlamaIndexTool_call env (query input));
         employee_context := Some (Enhanced.rebuild ctx);
         conversation_history := Some (h ++ Steps.exchange (query input) (Some r));
         final_response := Some r |} /\
    map fst (visited (invoke (Enhanced.workflow env) input agents)) =
      [ "fetch_employee_context"; "categorize"; "pinecone_query";
        "llamaindex_query"; "respond"; "update_conversation_history" ].
Proof.
  run_graph.
  destruct (employee_context input) as [ctx|]; run_graph; [|discriminate].
  destruct (Enhanced.HRInputProcessingTool_call (query input)) as [c|e];
    run_graph; [|discriminate].
  destruct (chain_invoke env _) as [r|e]; run_graph; [|discriminate].
  destruct (conversation_history input) as [h|]; run_graph; [|discriminate].
  intros _. exists ctx, c, r, h. repeat split; reflexivity.
Qed.

(** The enhanced context node needs a context. *)
Lemma enhanced_absent_context env input agents :
  employee_context input = None ->
  invoke (Enhanced.workflow env) input agents =
    Failed (undefined_property "department") input agents
      [ ("fetch_employee_context", input) ].
Proof. intros H. run_graph. rewrite H. reflexivity. Qed.

(** What a finished run of the simplified pipeline looks like. *)
Lemma simplified_finished env input agents :
  succeeded (invoke (Simplified.workflow env) input agents) = true ->
  exists c r,
    Simplified.HRInputProcessingTool_call (query input) = Ok c /\
    final_state (invoke (Simplified.workflow env) input agents) =
      {| query := query input; category := Some c;
         pinecone_result := Some (queryPinecone env (query input));
         llamaindex_result := llamaindex_result input;
         employee_context := employee_context input;
         conversation_history := conversation_history input;
         final_response := Some r |} /\
    map fst (visited (invoke (Simplified.workflow env) input agents)) =
      [ "categorize"; "pinecone_query"; "respond" ].
Proof.
  run_graph.
  destruct (Simplified.HRInputProcessingTool_call (query input)) as [c|e];
    run_graph; [|discriminate].
  destruct (chain_invoke env _) as [r|e]; run_graph; [|discriminate].
  intros _. exists c, r. repeat split; reflexivity.
Qed.

(** The escalation step on a fresh ticket system. *)
Lemma escalate_marker final q n :
  (mentions final ESCALATION_MARKER ->
     escalate final q n TicketManagementSystem.new =
       (Some (TicketManagementSystem.id (escalation_ticket q n)),
        {[ TicketManagementSystem.id (escalation_ticket q n) :=
             escalation_ticket q n ]})) /\
  (~ mentions final ESCALATION_MARKER ->
     escalate final q n TicketManagementSystem.new = (None, ∅)).
Proof.
  unfold escalate. split; intros H.
  - apply includes_lower_mentions in H. rewrite H. reflexivity.
  - destruct (includes _ _) eqn:E; [|reflexivity].
    apply includes_lower_mentions in E. contradiction.
Qed.

(** The handlers answer 200 only through their success branch. *)
Lemma enhanced_success env req out :
  Enhanced.appwriteFunction env req = Ok out ->
  statusCode (t_response out) = 200%Z ->
  exists p final,
    payload req = Some p /\
    succeeded (enhanced_run env p) = true /\
    final_response (final_state (enhanced_run env p)) = Some final /\
    t_response out =
      Enhanced.success (final_state (enhanced_run env p))
        (fst (escalate final (payload_query p) (now env) TicketManagementSystem.new)) /\
    t_tickets out =
      snd (escalate final (payload_query p) (now env) TicketManagementSystem.new) /\
    t_executed out = visited (enhanced_run env p).
Proof.
  unfold Enhanced.appwriteFunction, enhanced_run. cbv zeta.
  destruct (setupPinecone env) as [[]|e0]; [|discriminate].
  destruct (createAgent env) as [[]|e1];
    [|intros H; injection H as <-; discriminate].
  destruct (payload req) as [p|];
    [|intros H; injection H as <-; discriminate].
  destruct (invoke _ _ _) as [st ag tr|e st ag tr] eqn:Hrun;
    [|intros H; injection H as <-; discriminate].
  destruct (final_response st) as [final|] eqn:Hf;
    [|intros H; injection H as <-; discriminate].
  destruct (escalate _ _ _ _) as [tid ts] eqn:He.
  intros H _. injection H as <-. exists p, final. rewrite Hrun, He.
  cbn [t_response t_tickets t_executed fst snd final_state succeeded visited].
  repeat split; assumption || reflexivity.
Qed.

Lemma simplified_success env req out :
  Simplified.handler env req = Ok out ->
  statusCode (t_response out) = 200%Z ->
  exists p final,
    payload req = Some p /\
    succeeded (simplified_run env p) = true /\
    final_response (final_state (simplified_run env p)) = Some final /\
    t_response out =
      Simplified.success (final_state (simplified_run env p))
        (fst (escalate final (payload_query p) (now env) TicketManagementSystem.new)) /\
    t_tickets out =
      snd (escalate final (payload_query p) (now env) TicketManagementSystem.new) /\
    t_executed out = visited (simplified_run env p).
Proof.
  unfold Simplified.handler, simplified_run. cbv zeta.
  destruct (setupPinecone env) as [[]|e0]; [|discriminate].
  destruct (createAgent env) as [[]|e1];
    [|intros H; injection H as <-; discriminate].
  destruct (payload req) as [p|];
    [|intros H; injection H as <-; discriminate].
  destruct (invoke _ _ _) as [st ag tr|e st ag tr] eqn:Hrun;
    [|intros H; injection H as <-; discriminate].
  destruct (final_response st) as [final|] eqn:Hf;
    [|intros H; injection H as <-; discriminate].
  destruct (escalate _ _ _ _) as [tid ts] eqn:He.
  intros H _. injection H as <-. exists p, final. rewrite Hrun, He.
  cbn [t_response t_tickets t_executed fst snd final_state succeeded visited].
  repeat split; assumption || reflexivity.
Qed.

(** Reading the success answers. *)
Lemma enhanced_success_fields st tid :
  field "result" (Enhanced.success st tid) = VStr <$> final_response st /\
  field "ticketId" (Enhanced.success st tid) = VStr <$> tid.
Proof.
  unfold Enhanced.success, field, res_json.
  destruct (final_response st), (category st), (pinecone_result st),
    (llamaindex_result st), (employee_context st), (conversation_history st), tid;
    split; reflexivity.
Qed.

Lemma simplified_success_fields st tid :
  field "result" (Simplified.success st tid) = VStr <$> final_response st /\
  field "ticketId" (Simplified.success st tid) = VStr <$> tid.
Proof.
  unfold Simplified.success, field, res_json.
  destruct (final_response st), (category st), (pinecone_result st), tid;
    split; reflexivity.
Qed.

(** What the escalation step leaves behind, read off its two outputs. *)
Lemma escalate_outcome final q n :
  (mentions final "contact hr" ->
     exists t,
       fst (escalate final q n TicketManagementSystem.new) =
         Some (TicketManagementSystem.id t) /\
       snd (escalate final q n TicketManagementSystem.new) =
         {[ TicketManagementSystem.id t := t ]} /\
       TicketManagementSystem.priority t = "high" /\
       TicketManagementSystem.status t = "open" /\
       TicketManagementSystem.id t = "TICKET-" +:+ string_of_Z n) /\
  (~ mentions final "contact hr" ->
     fst (escalate final q n TicketManagementSystem.new) = None /\
     snd (escalate final q n TicketManagementSystem.new) = ∅).
Proof.
  destruct (escalate_marker final q n) as [Hyes Hno]. split; intros H.
  - rewrite (Hyes H). exists (escalation_ticket q n). repeat split; reflexivity.
  - rewrite (Hno H). split; reflexivity.
Qed.

(** A finished run is answered through the success branch. *)
Lemma enhanced_escalates env req p :
  setupPinecone env = Ok tt -> createAgent env = Ok tt -> payload req = Some p ->
  succeeded (enhanced_run env p) = true ->
  exists out final,
    Enhanced.appwriteFunction env req = Ok out /\
    statusCode (t_response out) = 200%Z /\
    final_response (final_state (enhanced_run env p)) = Some final /\
    field "result" (t_response out) = Some (VStr final) /\
    field "ticketId" (t_response out) =
      (if includes (toLowerCase final) "contact hr"
       then Some (VStr ("TICKET-" +:+ string_of_Z (now env))) else None) /\
    t_tickets out =
      (if includes (toLowerCase final) "contact hr"
       then {[ "TICKET-" +:+ string_of_Z (now env) :=
                 escalation_ticket (payload_query p) (now env) ]}
       else ∅) /\
    t_executed out = visited (enhanced_run env p).
Proof.
  intros Hs Hc Hp Hok.
  destruct (enhanced_finished _ _ _ Hok) as (ctx & c & r & h & _ & _ & _ & Hst & _).
  revert Hok Hst. unfold Enhanced.appwriteFunction, enhanced_run.
  rewrite Hs, Hc, Hp. cbv zeta.
  destruct (invoke _ _ _) as [st ag tr|e st ag tr]; [|discriminate].
  intros _ Hst. cbn [final_state] in Hst. subst st.
  cbn [final_response final_state visited].
  unfold escalate, ESCALATION_MARKER.
  destruct (includes (toLowerCase r) "contact hr") eqn:Hm;
    eexists; exists r; (split; [reflexivity|]);
    cbn [t_response t_tickets t_executed]; rewrite Hm;
    repeat split; reflexivity.
Qed.

Lemma simplified_escalates env req p :
  setupPinecone env = Ok tt -> createAgent env = Ok tt -> payload req = Some p ->
  succeeded (simplified_run env p) = true ->
  exists out final,
    Simplified.handler env req = Ok out /\
    statusCode (t_response out) = 200%Z /\
    final_response (final_state (simplified_run env p)) = Some final /\
    field "result" (t_response out) = Some (VStr final) /\
    field "ticketId" (t_response out) =
      (if includes (toLowerCase final) "contact hr"
       then Some (VStr ("TICKET-" +:+ string_of_Z (now env))) else None) /\
    t_tickets out =
      (if includes (toLowerCase final) "contact hr"
       then {[ "TICKET-" +:+ string_of_Z (now env) :=
                 escalation_ticket (payload_query p) (now env) ]}
       else ∅) /\
    t_executed out = visited (simplified_run env p).
Proof.
  intros Hs Hc Hp Hok.
  destruct (simplified_finished _ _ _ Hok) as (c & r & _ & Hst & _).
  revert Hok Hst. unfold Simplified.handler, simplified_run.
  rewrite Hs, Hc, Hp. cbv zeta.
  destruct (invoke _ _ _) as [st ag tr|e st ag tr]; [|discriminate].
  intros _ Hst. cbn [final_state] in Hst. subst st.
  cbn [final_response final_state visited].
  unfold escalate, ESCALATION_MARKER.
  destruct (includes (toLowerCase r) "contact hr") eqn:Hm;
    eexists; exists r; (split; [reflexivity|]);
    cbn [t_response t_tickets t_executed]; rewrite Hm;
    repeat split; reflexivity.
Qed.

(** C7: for every successful run of a ticketing handler (the enhanced and
    the simplified one), with [final] the synthesized response returned to
    the caller: if [final] contains the marker "contact hr" in any letter
    case, one ticket is created, with priority "high" and status "open",
    and its id is the [ticketId] of the response; if it does not, no ticket
    exists and the response has no [ticketId].  The ticket system is only
    touched after the run of the graph has finished.  Every finished run of
    the graph is such a successful run: each handler then answers 200 with
    the synthesized response, and the ticket id and the ticket are there
    exactly when the code's test for the marker holds. *)
Theorem escalation_iff_marker (env : Env) (req : PayloadRequest) :
  (forall out,
     Enhanced.appwriteFunction env req = Ok out \/ Simplified.handler env req = Ok out ->
     statusCode (t_response out) = 200%Z ->
     exists final,
       field "result" (t_response out) = Some (VStr final) /\
       (mentions final "contact hr" ->
          exists t,
            field "ticketId" (t_response out) =
              Some (VStr (TicketManagementSystem.id t)) /\
            t_tickets out = {[ TicketManagementSystem.id t := t ]} /\
            TicketManagementSystem.priority t = "high" /\
            TicketManagementSystem.status t = "open" /\
            TicketManagementSystem.id t = "TICKET-" +:+ string_of_Z (now env)) /\
       (~ mentions final "contact hr" ->
          field "ticketId" (t_response out) = None /\ t_tickets out = ∅) /\
       ran "respond" (t_executed out) = true) /\
  (forall p,
     setupPinecone env = Ok tt -> createAgent env = Ok tt -> payload req = Some p ->
     (succeeded (enhanced_run env p) = true ->
      exists out final,
        Enhanced.appwriteFunction env req = Ok out /\
        statusCode (t_response out) = 200%Z /\
        final_response (final_state (enhanced_run env p)) = Some final /\
        field "result" (t_response out) = Some (VStr final) /\
        field "ticketId" (t_response out) =
          (if includes (toLowerCase final) "contact hr"
           then Some (VStr ("TICKET-" +:+ string_of_Z (now env))) else None) /\
        t_tickets out =
          (if includes (toLowerCase final) "contact hr"
           then {[ "TICKET-" +:+ string_of_Z (now env) :=
                     escalation_ticket (payload_query p) (now env) ]}
           else ∅) /\
        t_executed out = visited (enhanced_run env p)) /\
     (succeeded (simplified_run env p) = true ->
      exists out final,
        Simplified.handler env req = Ok out /\
        statusCode (t_response out) = 200%Z /\
        final_response (final_state (simplified_run env p)) = Some final /\
        field "result" (t_response out) = Some (VStr final) /\
        field "ticketId" (t_response out) =
          (if includes (toLowerCase final) "contact hr"
           then Some (VStr ("TICKET-" +:+ string_of_Z (now env))) else None) /\
        t_tickets out =
          (if includes (toLowerCase final) "contact hr"
           then {[ "TICKET-" +:+ string_of_Z (now env) :=
                     escalation_ticket (payload_query p) (now env) ]}
           else ∅) /\
        t_executed out = visited (simplified_run env p))).
Proof.
  split.
  2: { intros p Hs Hc Hp. split;
         [now apply enhanced_escalates | now apply simplified_escalates]. }
  intros out [H | H] H200.
  - destruct (enhanced_success _ _ _ H H200)
      as (p & final & _ & Hok & Hf & -> & -> & ->).
    destruct (enhanced_success_fields (final_state (enhanced_run env p))
                (fst (escalate final (payload_query p) (now env)
                        TicketManagementSystem.new))) as [-> ->].
    destruct (escalate_outcome final (payload_query p) (now env)) as [Hyes Hno].
    exists final. rewrite Hf. split; [reflexivity|]. split; [|split].
    + intros Hm. destruct (Hyes Hm) as (t & -> & -> & Hp & Hs & Hi).
      exists t. repeat split; assumption || reflexivity.
    + intros Hm. destruct (Hno Hm) as [-> ->]. split; reflexivity.
    + destruct (enhanced_finished _ _ _ Hok) as (? & ? & ? & ? & _ & _ & _ & _ & Htr).
      unfold ran. rewrite existsb_exists.
      unfold enhanced_run.
      destruct (visited _) as [|[k1 s1] [|[k2 s2] [|[k3 s3] [|[k4 s4] [|[k5 s5] l]]]]];
        try discriminate Htr.
      exists (k5, s5). split; [do 4 right; now left|].
      cbn in Htr. injection Htr as _ _ _ _ -> _. reflexivity.
  - destruct (simplified_success _ _ _ H H200)
      as (p & final & _ & Hok & Hf & -> & -> & ->).
    destruct (simplified_success_fields (final_state (simplified_run env p))
                (fst (escalate final (payload_query p) (now env)
                        TicketManagementSystem.new))) as [-> ->].
    destruct (escalate_outcome final (payload_query p) (now env)) as [Hyes Hno].
    exists final. rewrite Hf. split; [reflexivity|]. split; [|split].
    + intros Hm. destruct (Hyes Hm) as (t & -> & -> & Hp & Hs & Hi).
      exists t. repeat split; assumption || reflexivity.
    + intros Hm. destruct (Hno Hm) as [-> ->]. split; reflexivity.
    + destruct (simplified_finished _ _ _ Hok) as (? & ? & _ & _ & Htr).
      unfold ran. rewrite existsb_exists.
      unfold simplified_run.
      destruct (visited _) as [|[k1 s1] [|[k2 s2] [|[k3 s3] l]]];
        try discriminate Htr.
      exists (k3, s3). split; [do 2 right; now left|].
      cbn in Htr. injection Htr as _ _ -> _. reflexivity.
Qed.

(** A failed run files no ticket. *)
Lemma failure_files_no_ticket env req out :
  Enhanced.appwriteFunction env req = Ok out \/ Simplified.handler env req = Ok out ->
  statusCode (t_response out) = 500%Z ->
  t_tickets out = ∅.
Proof.
  unfold Enhanced.appwriteFunction, Simplified.handler. cbv zeta.
  intros [H|H] H500; revert H H500;
    (destruct (setupPinecone env) as [[]|e0]; [|discriminate]);
    (destruct (createAgent env) as [[]|e1];
       [|intros H _; injection H as <-; reflexivity]);
    (destruct (payload req) as [p|];
       [|intros H _; injection H as <-; reflexivity]);
    (destruct (invoke _ _ _) as [st ag tr|e st ag tr];
       [|intros H _; injection H as <-; reflexivity]);
    (destruct (final_response st) as [final|];
       [|intros H _; injection H as <-; reflexivity]);
    destruct (escalate _ _ _ _) as [tid ts];
    intros H H500; injection H as <-; discriminate H500.
Qed.

(** The unknown query of the second end-to-end scenario: the answer suggests
    to contact HR, so each of the two handlers files one high-priority
    ticket and returns its id.  A query that is answered from the retrieved
    text leaves the simplified handler without ticket and without id. *)
Lemma escalation_iff_marker_witness :
  (exists out,
     Enhanced.appwriteFunction Sample.env_escalate
       (Sample.ask "asdkjasd" (Some Sample.ctx)) = Ok out /\
     field "ticketId" (t_response out) = Some (VStr "TICKET-1700000000000") /\
     t_tickets out =
       {[ "TICKET-1700000000000" :=
            escalation_ticket (Some "asdkjasd") 1700000000000 ]}) /\
  (exists out,
     Simplified.handler Sample.env_escalate (Sample.ask "asdkjasd" None) = Ok out /\
     statusCode (t_response out) = 200%Z /\
     field "ticketId" (t_response out) = Some (VStr "TICKET-1700000000000") /\
     t_tickets out =
       {[ "TICKET-1700000000000" :=
            escalation_ticket (Some "asdkjasd") 1700000000000 ]}) /\
  (exists out,
     Simplified.handler Sample.env_ok (Sample.ask "What is our leave policy?" None)
       = Ok out /\
     statusCode (t_response out) = 200%Z /\
     field "ticketId" (t_response out) = None /\
     t_tickets out = ∅).
Proof.
  split; [|split].
  - destruct (escalation_iff_marker Sample.env_escalate
                (Sample.ask "asdkjasd" (Some Sample.ctx))) as [_ H].
    destruct (H {| payload_query := Some "asdkjasd";
                   payload_employeeContext := Some Sample.ctx |}
                eq_refl eq_refl eq_refl) as [He _].
    destruct He as (out & final & Hout & _ & Hf & _ & Hid & Ht & _);
      [vm_compute; reflexivity|].
    assert (Hfinal : Some final =
              Some "I do not have sufficient data. Please contact HR for more details.")
      by (rewrite <- Hf; vm_compute; reflexivity).
    injection Hfinal as ->.
    exists out. split; [exact Hout|]. split; [exact Hid | exact Ht].
  - destruct (escalation_iff_marker Sample.env_escalate
                (Sample.ask "asdkjasd" None)) as [_ H].
    destruct (H {| payload_query := Some "asdkjasd";
                   payload_employeeContext := None |}
                eq_refl eq_refl eq_refl) as [_ Hs].
    destruct Hs as (out & final & Hout & H200 & Hf & _ & Hid & Ht & _);
      [vm_compute; reflexivity|].
    assert (Hfinal : Some final =
              Some "I do not have sufficient data. Please contact HR for more details.")
      by (rewrite <- Hf; vm_compute; reflexivity).
    injection Hfinal as ->.
    exists out. split; [exact Hout|]. split; [exact H200|].
    split; [exact Hid | exact Ht].
  - destruct (escalation_iff_marker Sample.env_ok
                (Sample.ask "What is our leave policy?" None)) as [_ H].
    destruct (H {| payload_query := Some "What is our leave policy?";
                   payload_employeeContext := None |}
                eq_refl eq_refl eq_refl) as [_ Hs].
    destruct Hs as (out & final & Hout & H200 & Hf & _ & Hid & Ht & _);
      [vm_compute; reflexivity|].
    assert (Hfinal : Some final = Some "You have 20 days of annual leave.")
      by (rewrite <- Hf; vm_compute; reflexivity).
    injection Hfinal as ->.
    exists out. split; [exact Hout|]. split; [exact H200|].
    split; [exact Hid | exact Ht].
Defined.

(** ** The success response *)

Lemma full_success_keys st :
  is_Some (final_response st) -> is_Some (category st) ->
  keys (Full.success st) = [ "status"; "message"; "final_response"; "category" ].
Proof. intros [r Hr] [c Hc]. unfold keys, Full.success, res_json. now rewrite Hr, Hc. Qed.

(** C8 (as amended): the success response of the enhanced handler exposes
    the synthesized response (as [result]), the category, both retrieved
    results, the employee context and the updated conversation history,
    followed by a [ticketId] exactly when the answer escalates.  The success
    response of the full handler exposes a strict subset: status, message,
    the synthesized response and the category, and nothing else. *)
Theorem success_response_fields (env : Env) :
  (forall req out,
     Enhanced.appwriteFunction env req = Ok out ->
     statusCode (t_response out) = 200%Z ->
     exists p final c ctx,
       payload req = Some p /\
       payload_employeeContext p = Some ctx /\
       Enhanced.HRInputProcessingTool_call (payload_query p) = Ok c /\
       responseBody (t_response out) =
         [ ("result", VStr final);
           ("category", VStr c);
           ("pinecone_result", VStr (queryPinecone env (payload_query p)));
           ("llamaindex_result",
            VStr (Enhanced.LlamaIndexTool_call env (payload_query p)));
           ("employee_context", VContext (Enhanced.rebuild ctx));
           ("conversation_history",
            VHistory (Steps.exchange (payload_query p) (Some final))) ] ++
         (if includes (toLowerCase final) "contact hr"
          then [ ("ticketId", VStr ("TICKET-" +:+ string_of_Z (now env))) ]
          else [])) /\
  (forall req w,
     statusCode (Full.response (Full.handler env req w)) = 200%Z ->
     keys (Full.response (Full.handler env req w)) =
       [ "status"; "message"; "final_response"; "category" ]).
Proof.
  split.
  - intros req out H H200.
    destruct (enhanced_success _ _ _ H H200)
      as (p & final & Hp & Hok & Hf & -> & _ & _).
    unfold enhanced_run in *.
    destruct (enhanced_finished _ _ _ Hok)
      as (ctx & c & r & h & Hctx & Hc & Hh & Hst & _).
    rewrite Hst in Hf |- *. cbn in Hf, Hh. injection Hf as ->. injection Hh as <-.
    exists p, final, c, ctx. do 3 (split; [assumption|]).
    unfold escalate, ESCALATION_MARKER.
    destruct (includes (toLowerCase final) "contact hr"); reflexivity.
  - intros req w. unfold Full.handler.
    destruct (negb _); [discriminate|].
    destruct (Full.initialize env w) as [[[]|e] w1]; [|discriminate].
    destruct (Full.body req) as [b|]; [|discriminate].
    destruct (invoke _ _ _) as [st w2 tr|e st w2 tr] eqn:Hrun; [|discriminate].
    intros _. cbn [Full.response].
    assert (Hok : succeeded (invoke (Full.workflow env)
              (initial_state (Full.body_query b) (Full.body_employee_context b)
                 (Full.body_conversation_history b)) w1) = true)
      by now rewrite Hrun.
    destruct (full_finished _ _ _ Hok) as (c & r & h & _ & _ & _ & Heq).
    rewrite Hrun in Heq. injection Heq as -> _ _.
    apply full_success_keys; eexists; reflexivity.
Qed.

(** The first end-to-end scenario on the enhanced handler: six fields and no
    ticket id. *)
Lemma success_response_fields_witness :
  exists out,
    Enhanced.appwriteFunction Sample.env_ok
      (Sample.ask "What is our leave policy?" (Some Sample.ctx)) = Ok out /\
    keys (t_response out) =
      [ "result"; "category"; "pinecone_result"; "llamaindex_result";
        "employee_context"; "conversation_history" ].
Proof.
  destruct (Enhanced.appwriteFunction Sample.env_ok
              (Sample.ask "What is our leave policy?" (Some Sample.ctx)))
    as [out|e] eqn:E.
  2: { assert (Hok : is_ok (Enhanced.appwriteFunction Sample.env_ok
                              (Sample.ask "What is our leave policy?"
                                 (Some Sample.ctx))) = true)
         by (vm_compute; reflexivity).
       rewrite E in Hok. discriminate Hok. }
  assert (H200 : statusCode (t_response out) = 200%Z).
  { change (on_ok (fun o => statusCode (t_response o)) 0%Z (Ok out) = 200%Z).
    rewrite <- E. vm_compute. reflexivity. }
  assert (Hres : field "result" (t_response out) =
            Some (VStr "You have 20 days of annual leave.")).
  { change (on_ok (fun o => field "result" (t_response o)) None (Ok out) =
            Some (VStr "You have 20 days of annual leave.")).
    rewrite <- E. vm_compute. reflexivity. }
  destruct (success_response_fields Sample.env_ok) as [Henh _].
  destruct (Henh _ out E H200) as (p & final & c & ctx & _ & _ & _ & Hbody).
  exists out. split; [reflexivity|].
  unfold keys. unfold field in Hres. rewrite Hbody in Hres |- *.
  injection Hres as ->. reflexivity.
Defined.

(** Counterexample to C8 as stated, on the full handler: its success response
    carries neither the retrieved results nor the conversation history. *)
Lemma full_response_counterexample :
  statusCode (Full.response (Full.handler Sample.env_ok
     (Sample.post (Some "What is our leave policy?")) Sample.fresh)) = 200%Z /\
  keys (Full.response (Full.handler Sample.env_ok
     (Sample.post (Some "What is our leave policy?")) Sample.fresh)) =
    [ "status"; "message"; "final_response"; "category" ] /\
  field "conversation_history" (Full.response (Full.handler Sample.env_ok
     (Sample.post (Some "What is our leave policy?")) Sample.fresh)) = None /\
  field "pinecone_result" (Full.response (Full.handler Sample.env_ok
     (Sample.post (Some "What is our leave policy?")) Sample.fresh)) = None /\
  field "llamaindex_result" (Full.response (Full.handler Sample.env_ok
     (Sample.post (Some "What is our leave policy?")) Sample.fresh)) = None.
Proof. repeat split; reflexivity. Qed.

(** ** The employee context *)

(** Every state of a run of the full pipeline carries the input's context. *)
Lemma full_context_invariant env input w k st :
  In (k, st) (visited (invoke (Full.workflow env) input w)) ->
  employee_context st = employee_context input.
Proof.
  rewrite full_invoke_steps. unfold Steps.run.
  destruct (Full.HRInputProcessingTool_call (query input)) as [c|e].
  - intros H.
    assert (Hin : In (k, st) (Steps.upto_respond env input c w) \/
                  exists r, (k, st) =
                    ("update_conversation_history", Steps.after_respond env input c w r)).
    { destruct (chain_invoke env _) as [r|e]; [|now left].
      assert (H' : In (k, st)
                (Steps.upto_respond env input c w ++
                 [("update_conversation_history",
                   Steps.after_respond env input c w r)]))
        by (destruct (conversation_history input); exact H).
      apply in_app_or in H'. destruct H' as [H'|[H'|[]]]; [now left | right; eauto]. }
    destruct Hin as [Hin | [r Hin]].
    + unfold Steps.upto_respond in Hin. simpl in Hin.
      destruct Hin as [Hin|[Hin|[Hin|[Hin|[Hin|[]]]]]];
        injection Hin as _ <-; reflexivity.
    + injection Hin as _ ->. reflexivity.
  - simpl. intros [H|[H|[]]]; injection H as _ <-; reflexivity.
Qed.

Lemma full_context_final env input w :
  employee_context (final_state (invoke (Full.workflow env) input w)) =
  employee_context input.
Proof.
  rewrite full_invoke_steps. unfold Steps.run.
  destruct (Full.HRInputProcessingTool_call (query input)) as [c|e]; [|reflexivity].
  destruct (chain_invoke env _) as [r|e]; [|reflexivity].
  destruct (conversation_history input); reflexivity.
Qed.

(** The object the enhanced context node builds. *)
Lemma rebuild_lookup ctx k :
  Enhanced.rebuild ctx !! k =
    if decide (k ∈ CONTEXT_KEYS) then Some (Enhanced.prop ctx k) else None.
Proof.
  unfold Enhanced.rebuild, CONTEXT_KEYS.
  destruct (decide (k = "department")) as [->|Hd];
    [rewrite lookup_insert_eq; rewrite decide_True by (rewrite !elem_of_union, !elem_of_singleton; tauto); reflexivity|].
  rewrite lookup_insert_ne by congruence.
  destruct (decide (k = "role")) as [->|Hr];
    [rewrite lookup_insert_eq; rewrite decide_True by (rewrite !elem_of_union, !elem_of_singleton; tauto); reflexivity|].
  rewrite lookup_insert_ne by congruence.
  destruct (decide (k = "tenure")) as [->|Ht];
    [rewrite lookup_insert_eq; rewrite decide_True by (rewrite !elem_of_union, !elem_of_singleton; tauto); reflexivity|].
  rewrite lookup_insert_ne by congruence.
  rewrite lookup_empty.
  destruct (decide (k ∈ _)) as [Hk|_]; [|reflexivity].
  rewrite !elem_of_union, !elem_of_singleton in Hk. intuition congruence.
Qed.

Lemma rebuild_dom ctx : dom (Enhanced.rebuild ctx) = CONTEXT_KEYS.
Proof.
  unfold Enhanced.rebuild, CONTEXT_KEYS.
  rewrite !dom_insert_L, dom_empty_L, union_empty_r_L.
  rewrite (assoc_L (∪)). reflexivity.
Qed.

Lemma rebuild_exact ctx :
  dom ctx = CONTEXT_KEYS -> Enhanced.rebuild ctx = ctx.
Proof.
  intros Hdom. apply map_eq. intros k. rewrite rebuild_lookup.
  destruct (decide (k ∈ CONTEXT_KEYS)) as [Hk|Hk].
  - rewrite <- Hdom in Hk. apply elem_of_dom in Hk as [v Hv].
    unfold Enhanced.prop. rewrite Hv. reflexivity.
  - rewrite <- Hdom in Hk. apply not_elem_of_dom in Hk. now rewrite Hk.
Qed.

(** C9 (as amended): in the full pipeline the caller-supplied employee
    context passes through unchanged: the context node succeeds whether the
    context is present or absent, and every state of every run, the final
    one included, carries the context of the input.  In the enhanced
    pipeline the context node rebuilds a present context from its
    department, role and tenure properties: the result has exactly these
    three properties, each with the value read from the input, so other
    properties are dropped; a context that has exactly these three
    properties passes through with equal content. *)
Theorem context_pass_through (env : Env) (input : State) (w : Full.Instance) :
  (forall st w', Full.employeeContextNode st w' =
                   (Ok (SetEmployeeContext (employee_context st)), w')) /\
  (forall k st, In (k, st) (visited (invoke (Full.workflow env) input w)) ->
                employee_context st = employee_context input) /\
  employee_context (final_state (invoke (Full.workflow env) input w)) =
    employee_context input /\
  (forall st a ctx, employee_context st = Some ctx ->
     Enhanced.employeeContextNode st a =
       (Ok (SetEmployeeContext (Some (Enhanced.rebuild ctx))), a) /\
     dom (Enhanced.rebuild ctx) = CONTEXT_KEYS /\
     (forall k, k ∈ CONTEXT_KEYS ->
        Enhanced.rebuild ctx !! k = Some (Enhanced.prop ctx k)) /\
     (dom ctx = CONTEXT_KEYS -> Enhanced.rebuild ctx = ctx)).
Proof.
  split; [reflexivity|]. split; [apply full_context_invariant|].
  split; [apply full_context_final|].
  intros st a ctx Hctx. split; [|split; [|split]].
  - unfold Enhanced.employeeContextNode. now rewrite Hctx.
  - apply rebuild_dom.
  - intros k Hk. rewrite rebuild_lookup. now rewrite decide_True.
  - apply rebuild_exact.
Qed.

(** The sample context has exactly the three properties: it comes out of
    the enhanced context node with equal content. *)
Lemma context_pass_through_witness :
  Enhanced.rebuild Sample.ctx = Sample.ctx /\
  employee_context
    (final_state (invoke (Full.workflow Sample.env_ok) (Sample.input "leave")
                    Sample.fresh)) = Some Sample.ctx.
Proof.
  destruct (context_pass_through Sample.env_ok (Sample.input "leave") Sample.fresh)
    as (_ & _ & Hfinal & Henh).
  split; [|exact Hfinal].
  destruct (Henh (Sample.input "leave") AIAgentManager.new Sample.ctx eq_refl)
    as (_ & _ & _ & Hexact).
  apply Hexact. reflexivity.
Defined.

(** Counterexample to C9 as stated, on the enhanced context node: a property
    besides the three is dropped, and without a context the node throws, so
    the enhanced handler answers 500 after this one node. *)
Lemma enhanced_context_counterexample :
  (<["location" := Some "Berlin"]> Sample.ctx : EmployeeContext) !! "location"
    = Some (Some "Berlin") /\
  Enhanced.rebuild (<["location" := Some "Berlin"]> Sample.ctx) !! "location" = None /\
  Enhanced.employeeContextNode (initial_state (Some "hi") None (Some []))
      AIAgentManager.new =
    (Throw (undefined_property "department"), AIAgentManager.new) /\
  on_ok (fun out => statusCode (t_response out)) 0%Z
    (Enhanced.appwriteFunction Sample.env_ok (Sample.ask "hi" None)) = 500%Z /\
  on_ok (fun out => map fst (t_executed out)) []
    (Enhanced.appwriteFunction Sample.env_ok (Sample.ask "hi" None)) =
    [ "fetch_employee_context" ].
Proof.
  split; [|split; [|split; [|split]]].
  - apply lookup_insert_eq.
  - rewrite rebuild_lookup. rewrite decide_False; [reflexivity|].
    unfold CONTEXT_KEYS. rewrite !elem_of_union, !elem_of_singleton.
    intuition discriminate.
  - reflexivity.
  - reflexivity.
  - reflexivity.
Qed.

(** ** Tickets *)

Lemma ticket_id_prefix n : startsWith ("TICKET-" +:+ string_of_Z n) "TICKET-" = true.
Proof. reflexivity. Qed.

Lemma status_of_created d p n tickets :
  TicketManagementSystem.getTicketStatus
    (fst (TicketManagementSystem.createTicket d p n tickets))
    (snd (TicketManagementSystem.createTicket d p n tickets)) = "open".
Proof.
  unfold TicketManagementSystem.getTicketStatus, TicketManagementSystem.createTicket.
  cbn [fst snd]. rewrite lookup_insert_eq. reflexivity.
Qed.

Lemma tickets_inv_new : tickets_inv TicketManagementSystem.new [].
Proof.
  intros i. split.
  - intros H. now apply elem_of_nil in H.
  - intros _. apply lookup_empty.
Qed.

Lemma tickets_inv_create d p n tickets ids :
  tickets_inv tickets ids ->
  tickets_inv (snd (TicketManagementSystem.createTicket d p n tickets))
    (ids ++ [fst (TicketManagementSystem.createTicket d p n tickets)]).
Proof.
  intros Hinv i. unfold TicketManagementSystem.createTicket. cbn [fst snd].
  destruct (decide (i = "TICKET-" +:+ string_of_Z n)) as [->|Hne].
  - rewrite lookup_insert_eq. split.
    + intros _. eexists. split; reflexivity.
    + intros H. exfalso. apply H. apply elem_of_app. right. apply list_elem_of_singleton.
      reflexivity.
  - rewrite lookup_insert_ne by congruence.
    destruct (Hinv i) as [Hin Hout]. split.
    + intros H. apply elem_of_app in H as [H|H]; [now apply Hin|].
      apply list_elem_of_singleton in H. contradiction.
    + intros H. apply Hout. intros H'. apply H. apply elem_of_app. now left.
Qed.

Lemma tickets_inv_update i u n tickets ids :
  tickets_inv tickets ids ->
  tickets_inv (TicketManagementSystem.updateTicket i u n tickets) ids.
Proof.
  intros Hinv j. unfold TicketManagementSystem.updateTicket.
  destruct (tickets !! i) as [t|] eqn:Ht; [|apply Hinv].
  destruct (decide (j = i)) as [->|Hne].
  - rewrite lookup_insert_eq. destruct (Hinv i) as [Hin Hout]. split.
    + intros H. destruct (Hin H) as (t' & Ht' & Hopen).
      rewrite Ht in Ht'. injection Ht' as <-.
      eexists. split; [reflexivity | exact Hopen].
    + intros H. rewrite (Hout H) in Ht. discriminate Ht.
  - rewrite lookup_insert_ne by congruence. apply Hinv.
Qed.

Lemma tickets_inv_run calls : forall tickets ids,
  tickets_inv tickets ids ->
  tickets_inv (fst (TicketManagementSystem.run calls tickets ids))
              (snd (TicketManagementSystem.run calls tickets ids)).
Proof.
  induction calls as [|[d p n | i u n] calls IH]; intros tickets ids Hinv.
  - exact Hinv.
  - cbn [TicketManagementSystem.run].
    pose proof (tickets_inv_create d p n _ _ Hinv) as H.
    destruct (TicketManagementSystem.createTicket d p n tickets) as [i t'].
    now apply IH.
  - cbn [TicketManagementSystem.run]. apply IH. now apply tickets_inv_update.
Qed.

(** C10: [createTicket] stores the ticket under the id it returns, with
    status "open", an empty updates list and an id that begins with
    "TICKET-", so the status of a just-created id is "open"; and after any
    history of [createTicket] and [updateTicket] calls on a new system, the
    status of an id that was handed out is "open" and the status of any
    other id is "not found". *)
Theorem ticket_status_lifecycle :
  (forall d p n tickets,
     startsWith (fst (TicketManagementSystem.createTicket d p n tickets)) "TICKET-"
       = true /\
     snd (TicketManagementSystem.createTicket d p n tickets)
       !! fst (TicketManagementSystem.createTicket d p n tickets) =
       Some {| TicketManagementSystem.id :=
                 fst (TicketManagementSystem.createTicket d p n tickets);
               TicketManagementSystem.description := d;
               TicketManagementSystem.status := "open";
               TicketManagementSystem.priority := default "medium" p;
               TicketManagementSystem.updates := [] |} /\
     TicketManagementSystem.getTicketStatus
       (fst (TicketManagementSystem.createTicket d p n tickets))
       (snd (TicketManagementSystem.createTicket d p n tickets)) = "open") /\
  (forall calls i,
     TicketManagementSystem.getTicketStatus i
       (fst (TicketManagementSystem.run calls TicketManagementSystem.new [])) =
     if decide (i ∈ snd (TicketManagementSystem.run calls TicketManagementSystem.new []))
     then "open" else "not found").
Proof.
  split.
  - intros d p n tickets. split; [apply ticket_id_prefix|].
    split; [|apply status_of_created].
    unfold TicketManagementSystem.createTicket. cbn [fst snd].
    apply lookup_insert_eq.
  - intros calls i.
    destruct (tickets_inv_run calls _ _ tickets_inv_new i) as [Hin Hout].
    unfold TicketManagementSystem.getTicketStatus.
    destruct (decide _) as [H|H].
    + destruct (Hin H) as (t & -> & Hopen). cbn. now rewrite Hopen.
    + now rewrite (Hout H).
Qed.

(** Two tickets and an update: both ids read "open", another id reads
    "not found". *)
Example ticket_status_sample :
  let calls := [ TicketManagementSystem.CreateTicket "laptop" None 1700000000000;
                 TicketManagementSystem.UpdateTicket "TICKET-1700000000000" "ordered"
                   1700000000500;
                 TicketManagementSystem.CreateTicket "badge" (Some "high")
                   1700000001000 ] in
  let sys := fst (TicketManagementSystem.run calls TicketManagementSystem.new []) in
  TicketManagementSystem.getTicketStatus "TICKET-1700000000000" sys = "open" /\
  TicketManagementSystem.getTicketStatus "TICKET-1700000001000" sys = "open" /\
  TicketManagementSystem.getTicketStatus "TICKET-42" sys = "not found".
Proof. repeat split; reflexivity. Qed.

(** * Further properties of the code *)

(** ** The three workflows *)

Ltac in_list := apply list_elem_of_In; simpl; tauto.

Ltac prefix_by_rest :=
  match goal with
  | |- ?l `prefix_of` ?k => exists (drop (length l) k); reflexivity
  end.

Lemma full_path_cases env input w :
  (path (invoke (Full.workflow env) input w) = take 2 FULL_ORDER /\
   succeeded (invoke (Full.workflow env) input w) = false) \/
  (path (invoke (Full.workflow env) input w) = take 5 FULL_ORDER /\
   succeeded (invoke (Full.workflow env) input w) = false) \/
  (path (invoke (Full.workflow env) input w) = FULL_ORDER).
Proof.
  rewrite full_invoke_steps. unfold Steps.run, path.
  destruct (Full.HRInputProcessingTool_call (query input)) as [c|e];
    [|left; split; reflexivity].
  destruct (chain_invoke env _) as [r|e]; [|right; left; split; reflexivity].
  right; right. destruct (conversation_history input); reflexivity.
Qed.

Lemma enhanced_path_cases env input a :
  (exists n, (n = 1 \/ n = 2 \/ n = 5) /\
     path (invoke (Enhanced.workflow env) input a) = take n FULL_ORDER /\
     succeeded (invoke (Enhanced.workflow env) input a) = false) \/
  (path (invoke (Enhanced.workflow env) input a) = FULL_ORDER).
Proof.
  unfold path. run_graph.
  destruct (employee_context input) as [ctx|]; run_graph;
    [|left; exists 1; split; [tauto | split; reflexivity]].
  destruct (Enhanced.HRInputProcessingTool_call (query input)) as [c|e]; run_graph;
    [|left; exists 2; split; [tauto | split; reflexivity]].
  destruct (chain_invoke env _) as [r|e]; run_graph;
    [|left; exists 5; split; [tauto | split; reflexivity]].
  right. destruct (conversation_history input); reflexivity.
Qed.

Lemma simplified_path_cases env input a :
  (path (invoke (Simplified.workflow env) input a) = take 1 SIMPLIFIED_ORDER /\
   succeeded (invoke (Simplified.workflow env) input a) = false) \/
  (path (invoke (Simplified.workflow env) input a) = SIMPLIFIED_ORDER).
Proof.
  unfold path. run_graph.
  destruct (Simplified.HRInputProcessingTool_call (query input)) as [c|e]; run_graph;
    [|left; split; reflexivity].
  right. destruct (chain_invoke env _); reflexivity.
Qed.

(** X1: every run of each of the three workflows goes through the nodes in
    the order of the edge definitions, each node at most once and starting
    with the entry node: the path of a run is a non-empty prefix of the node
    list, and the whole list when the run finishes.  A retriever node is
    never the last node of a path: no run stops in a retriever. *)
Theorem workflows_run_in_edge_order (env : Env) (input : State) :
  (forall w,
     path (invoke (Full.workflow env) input w) `prefix_of` FULL_ORDER /\
     2 <= length (path (invoke (Full.workflow env) input w)) /\
     (succeeded (invoke (Full.workflow env) input w) = true ->
        path (invoke (Full.workflow env) input w) = FULL_ORDER) /\
     last (path (invoke (Full.workflow env) input w))
       ∈ [ Some "categorize"; Some "respond"; Some "update_conversation_history" ]) /\
  (forall a,
     path (invoke (Enhanced.workflow env) input a) `prefix_of` FULL_ORDER /\
     1 <= length (path (invoke (Enhanced.workflow env) input a)) /\
     (succeeded (invoke (Enhanced.workflow env) input a) = true ->
        path (invoke (Enhanced.workflow env) input a) = FULL_ORDER) /\
     last (path (invoke (Enhanced.workflow env) input a))
       ∈ [ Some "fetch_employee_context"; Some "categorize"; Some "respond";
           Some "update_conversation_history" ]) /\
  (forall a,
     path (invoke (Simplified.workflow env) input a) `prefix_of` SIMPLIFIED_ORDER /\
     1 <= length (path (invoke (Simplified.workflow env) input a)) /\
     (succeeded (invoke (Simplified.workflow env) input a) = true ->
        path (invoke (Simplified.workflow env) input a) = SIMPLIFIED_ORDER) /\
     last (path (invoke (Simplified.workflow env) input a))
       ∈ [ Some "categorize"; Some "respond" ]).
Proof.
  split; [|split].
  - intros w.
    destruct (full_path_cases env input w) as [[-> Hs] | [[-> Hs] | ->]];
      try rewrite Hs;
      (split; [prefix_by_rest|]); (split; [simpl; lia|]);
      (split; [try discriminate; reflexivity|]); simpl; in_list.
  - intros a.
    destruct (enhanced_path_cases env input a) as [(n & Hn & -> & Hs) | ->].
    + rewrite Hs.
      destruct Hn as [-> | [-> | ->]];
        (split; [prefix_by_rest|]); (split; [simpl; lia|]);
        (split; [discriminate|]); simpl; in_list.
    + split; [prefix_by_rest|]. split; [simpl; lia|].
      split; [reflexivity|]. simpl. in_list.
  - intros a.
    destruct (simplified_path_cases env input a) as [[-> Hs] | ->];
      try rewrite Hs;
      (split; [prefix_by_rest|]); (split; [simpl; lia|]);
      (split; [try discriminate; reflexivity|]); simpl; in_list.
Qed.

(** ** The classifiers *)

Lemma string_app_assoc (a b c : string) : (a +:+ b) +:+ c = a +:+ b +:+ c.
Proof.
  induction a as [|x a IH]; [reflexivity|].
  change (String x ((a +:+ b) +:+ c) = String x (a +:+ b +:+ c)). now rewrite IH.
Qed.

Lemma mentions_in_context q kw a b :
  mentions q kw -> mentions (a +:+ q +:+ b) kw.
Proof.
  intros (a' & w & b' & -> & Hw).
  exists (a +:+ a'), w, (b' +:+ b). split; [|exact Hw].
  now rewrite !string_app_assoc.
Qed.

(** X2: the three classifiers agree on every query except where the full
    one answers TRAINING: there the three-rule classifiers of the enhanced
    and the simplified version answer GENERAL. *)
Theorem classifiers_differ_only_on_training (q : option string) :
  Enhanced.HRInputProcessingTool_call q = Simplified.HRInputProcessingTool_call q /\
  ((Full.HRInputProcessingTool_call q = Ok "TRAINING" /\
    Simplified.HRInputProcessingTool_call q = Ok "GENERAL") \/
   (Full.HRInputProcessingTool_call q = Simplified.HRInputProcessingTool_call q /\
    Full.HRInputProcessingTool_call q <> Ok "TRAINING")).
Proof.
  split; [reflexivity|].
  destruct q as [q|]; [|right; split; [reflexivity | discriminate]].
  unfold Full.HRInputProcessingTool_call, Simplified.HRInputProcessingTool_call.
  cbv zeta.
  destruct (includes (toLowerCase q) "policy" || includes (toLowerCase q) "handbook");
    [right; split; [reflexivity | discriminate]|].
  destruct (includes (toLowerCase q) "leave" || includes (toLowerCase q) "vacation");
    [right; split; [reflexivity | discriminate]|].
  destruct (includes (toLowerCase q) "salary" || includes (toLowerCase q) "compensation");
    [right; split; [reflexivity | discriminate]|].
  destruct (includes (toLowerCase q) "training" || includes (toLowerCase q) "development");
    [left; split; reflexivity | right; split; [reflexivity | discriminate]].
Qed.

(** X3: the verdict of a classifier depends on the query only through its
    lower-cased form, and text around a query never changes a POLICY
    verdict: if [q] is a POLICY query, so is every text that contains [q]. *)
Theorem classify_case_blind_and_policy_stable (q : string) :
  Full.HRInputProcessingTool_call (Some (toLowerCase q)) =
    Full.HRInputProcessingTool_call (Some q) /\
  Simplified.HRInputProcessingTool_call (Some (toLowerCase q)) =
    Simplified.HRInputProcessingTool_call (Some q) /\
  (forall a b, Full.HRInputProcessingTool_call (Some q) = Ok "POLICY" ->
     Full.HRInputProcessingTool_call (Some (a +:+ q +:+ b)) = Ok "POLICY" /\
     Simplified.HRInputProcessingTool_call (Some (a +:+ q +:+ b)) = Ok "POLICY").
Proof.
  split; [|split].
  - unfold Full.HRInputProcessingTool_call. now rewrite toLowerCase_idem.
  - unfold Simplified.HRInputProcessingTool_call. now rewrite toLowerCase_idem.
  - intros a b H.
    assert (Hhit : hits q "policy" "handbook").
    { apply rule_test_hits.
      unfold Full.HRInputProcessingTool_call in H. cbv zeta in H.
      destruct (includes (toLowerCase q) "policy" || includes (toLowerCase q) "handbook");
        [reflexivity|].
      repeat match type of H with
             | (if ?c then _ else _) = _ => destruct c
             end; discriminate H. }
    assert (Hctx : hits (a +:+ q +:+ b) "policy" "handbook")
      by (destruct Hhit as [Hm|Hm]; [left|right]; now apply mentions_in_context).
    split.
    + now apply full_classifier_rules.
    + now apply simplified_classifier_rules.
Qed.

(** ** The instance of the full version *)

(** X4: the module-level singleton is built at most once.  On an instance
    that has it, [initialize] returns without consulting any collaborator;
    a failing build leaves the instance as it was, so the next request
    tries again; no request ever takes the singleton away; and a request
    whose build fails is answered 500 with the message of that failure
    without any node being run. *)
Theorem singleton_built_once (env : Env) (w : Full.Instance) :
  (Full.hrCopilot w = true -> Full.initialize env w = (Ok tt, w)) /\
  (forall e, fst (Full.initialize env w) = Throw e ->
     snd (Full.initialize env w) = w /\ Full.hrCopilot w = false) /\
  (fst (Full.initialize env w) = Ok tt ->
     Full.hrCopilot (snd (Full.initialize env w)) = true /\
     Full.index (snd (Full.initialize env w)) = Full.index w) /\
  (forall req, Full.hrCopilot w = true ->
     Full.hrCopilot (Full.instance (Full.handler env req w)) = true) /\
  (forall req e, Full.method req = "POST" ->
     fst (Full.initialize env w) = Throw e ->
     Full.handler env req w =
       {| Full.response := Full.internalServerError e; Full.instance := w;
          Full.executed := [] |}).
Proof.
  unfold Full.initialize.
  split; [|split; [|split; [|split]]].
  - intros ->. reflexivity.
  - intros e. destruct (Full.hrCopilot w); [discriminate|]. simpl.
    destruct (setupPinecone env) as [[]|e1]; [|intros _; split; reflexivity].
    destruct (createAgent env) as [[]|e2]; [discriminate|].
    intros _. split; reflexivity.
  - destruct (Full.hrCopilot w) eqn:Hc; simpl; [intros _; now split|].
    destruct (setupPinecone env) as [[]|e1]; [|discriminate].
    destruct (createAgent env) as [[]|e2]; [|discriminate].
    intros _. split; reflexivity.
  - intros req Hc. unfold Full.handler, Full.initialize. rewrite Hc. simpl.
    destruct (negb _); [exact Hc|].
    destruct (Full.body req) as [b|]; [|exact Hc].
    rewrite full_invoke_steps. unfold Steps.run.
    destruct (Full.HRInputProcessingTool_call _) as [c|e]; [|exact Hc].
    assert (Hll : forall q, Full.hrCopilot
              (snd (Full.LlamaIndexTool_call env q w)) = true).
    { intros q. unfold Full.LlamaIndexTool_call, Full.LlamaIndexTool_initialize.
      destruct (Full.index w); simpl; [destruct (llama_query env q); exact Hc|].
      destruct (llama_initialize env); simpl;
        [destruct (llama_query env q)|]; exact Hc. }
    destruct (chain_invoke env _) as [r|e]; [|apply Hll].
    destruct (conversation_history _); apply Hll.
  - intros req e Hm. unfold Full.handler, Full.initialize. rewrite Hm.
    cbn [String.eqb Ascii.eqb Bool.eqb negb].
    destruct (Full.hrCopilot w); [discriminate|]. simpl.
    destruct (setupPinecone env) as [[]|e1]; [|intros [= ->]; reflexivity].
    destruct (createAgent env) as [[]|e2]; [discriminate|].
    intros [= ->]. reflexivity.
Qed.

(** On a warm instance a POST is served although the build would now fail. *)
Lemma singleton_built_once_witness :
  Full.initialize Sample.env_down Sample.warm = (Ok tt, Sample.warm) /\
  Full.hrCopilot
    (Full.instance (Full.handler Sample.env_down (Sample.post (Some "leave"))
                      Sample.warm)) = true.
Proof.
  destruct (singleton_built_once Sample.env_down Sample.warm)
    as (Hwarm & _ & _ & Hkeep & _).
  split; [apply Hwarm; reflexivity | apply Hkeep; reflexivity].
Defined.

Lemma llamaindex_initialize_throws env w :
  Full.LlamaIndexTool_initialize env w = (Throw (ReferenceError "Storage"), w).
Proof. reflexivity. Qed.

Lemma llamaindex_call_frame env q w :
  Full.hrCopilot (snd (Full.LlamaIndexTool_call env q w)) = Full.hrCopilot w /\
  Full.index (snd (Full.LlamaIndexTool_call env q w)) = Full.index w.
Proof.
  unfold Full.LlamaIndexTool_call. rewrite llamaindex_initialize_throws.
  destruct (negb (Full.index w)); [split; reflexivity|].
  destruct (llama_query env q); split; reflexivity.
Qed.

Lemma handler_keeps_index env req w :
  Full.index (Full.instance (Full.handler env req w)) = Full.index w.
Proof.
  unfold Full.handler, Full.initialize.
  destruct (negb (String.eqb _ _)); [reflexivity|].
  assert (Hcall : forall q w1, Full.index w1 = Full.index w ->
            Full.index (snd (Full.LlamaIndexTool_call env q w1)) = Full.index w).
  { intros q w1 <-. apply llamaindex_call_frame. }
  assert (Hrun : forall b w1, Full.index w1 = Full.index w ->
            Full.index
              (world_of (invoke (Full.workflow env)
                 (initial_state (Full.body_query b) (Full.body_employee_context b)
                    (Full.body_conversation_history b)) w1)) = Full.index w).
  { intros b w1 Hw1. rewrite full_invoke_steps. unfold Steps.run.
    destruct (Full.HRInputProcessingTool_call _) as [c|e]; [|exact Hw1].
    destruct (chain_invoke env _) as [r|e]; [|now apply Hcall].
    destruct (conversation_history _); now apply Hcall. }
  destruct (negb (Full.hrCopilot w));
    [destruct (setupPinecone env) as [[]|e1]; [|reflexivity];
     destruct (createAgent env) as [[]|e2]; [|reflexivity]|];
    (destruct (Full.body req) as [b|]; [|reflexivity]);
    match goal with
    | |- context [invoke ?wf ?i ?w1] =>
        specialize (Hrun b w1 eq_refl); destruct (invoke wf i w1); exact Hrun
    end.
Qed.

(** X5: the full version never gets the index of its LlamaIndex tool.
    [initialize] of the tool throws before any collaborator is consulted,
    because its module has no binding for [Storage], and leaves the
    instance as it was.  So a call on a tool without index answers with the
    error sentinel and leaves the tool without index, whatever the document
    store and the engine would answer; the call never touches the singleton
    flag; after any sequence of requests served by a module that started
    without index the index is still missing; and in every run of such a
    module the synthesis step is handed the error sentinel as the
    LlamaIndex result. *)
Theorem llamaindex_index_never_built (env : Env) (q : option string)
    (w : Full.Instance) :
  (exists e, Full.LlamaIndexTool_initialize env w = (Throw e, w)) /\
  (Full.index w = false ->
     Full.LlamaIndexTool_call env q w = (LLAMAINDEX_ERROR, w)) /\
  Full.hrCopilot (snd (Full.LlamaIndexTool_call env q w)) = Full.hrCopilot w /\
  (forall calls, Full.index w = false -> Full.index (serve calls w) = false) /\
  (forall input st, Full.index w = false ->
     In ("respond", st) (visited (invoke (Full.workflow env) input w)) ->
     llamaindex_result st = Some LLAMAINDEX_ERROR).
Proof.
  split; [eexists; apply llamaindex_initialize_throws|].
  assert (Hcold : Full.index w = false ->
            Full.LlamaIndexTool_call env q w = (LLAMAINDEX_ERROR, w)).
  { intros Hi. unfold Full.LlamaIndexTool_call.
    rewrite Hi, llamaindex_initialize_throws. reflexivity. }
  split; [exact Hcold|]. split; [apply llamaindex_call_frame|]. split.
  - intros calls. revert w Hcold. induction calls as [|[env' req] calls IH];
      intros w _ Hi; [exact Hi|].
    cbn [serve foldl fst snd]. apply IH; [|now rewrite handler_keeps_index].
    intros H. unfold Full.LlamaIndexTool_call.
    rewrite H, llamaindex_initialize_throws. reflexivity.
  - intros input st Hi. rewrite full_invoke_steps. intros Hin.
    destruct (respond_entry _ _ _ _ Hin) as (c & _ & ->).
    unfold Steps.after_llamaindex. cbn [apply_update llamaindex_result].
    unfold Full.LlamaIndexTool_call.
    rewrite Hi, llamaindex_initialize_throws. reflexivity.
Qed.

(** With the document store and the engine up, a fresh tool still answers
    with its sentinel, and after two served requests the module has no
    index. *)
Lemma llamaindex_index_never_built_witness :
  Full.LlamaIndexTool_call Sample.env_ok (Some "leave") Sample.fresh =
    (LLAMAINDEX_ERROR, Sample.fresh) /\
  serve [ (Sample.env_ok, Sample.post (Some "leave"));
          (Sample.env_ok, Sample.post (Some "salary")) ] Sample.fresh = Sample.warm.
Proof.
  destruct (llamaindex_index_never_built Sample.env_ok (Some "leave") Sample.fresh)
    as (_ & Hcold & _ & Hserve & _).
  split; [apply Hcold; reflexivity|].
  specialize (Hserve [ (Sample.env_ok, Sample.post (Some "leave"));
                       (Sample.env_ok, Sample.post (Some "salary")) ] eq_refl).
  destruct (serve _ _) as [h i] eqn:E. cbn [Full.index] in Hserve. subst i.
  assert (Hh : Full.hrCopilot
                 (serve [ (Sample.env_ok, Sample.post (Some "leave"));
                          (Sample.env_ok, Sample.post (Some "salary")) ]
                    Sample.fresh) = true) by (vm_compute; reflexivity).
  rewrite E in Hh. cbn [Full.hrCopilot] in Hh. subst h. reflexivity.
Defined.

(** X6: the handler of the full version always answers, with status 200,
    405 or 500; the [status] field of the body repeats the HTTP status; and
    the status is 200 exactly when the method is POST, the singleton is
    there or could be built, the request has a body, and the graph run
    finished. *)
Theorem full_handler_statuses (env : Env) (req : Full.Request) (w : Full.Instance) :
  statusCode (Full.response (Full.handler env req w)) ∈ FULL_STATUSES /\
  field "status" (Full.response (Full.handler env req w)) =
    Some (VNum (statusCode (Full.response (Full.handler env req w)))) /\
  (statusCode (Full.response (Full.handler env req w)) = 405%Z <->
     Full.method req <> "POST") /\
  (statusCode (Full.response (Full.handler env req w)) = 200%Z <->
     Full.method req = "POST" /\
     fst (Full.initialize env w) = Ok tt /\
     exists b, Full.body req = Some b /\
       succeeded (invoke (Full.workflow env)
                    (initial_state (Full.body_query b) (Full.body_employee_context b)
                       (Full.body_conversation_history b))
                    (snd (Full.initialize env w))) = true).
Proof.
  unfold Full.handler, Full.methodNotAllowed, Full.internalServerError,
    Full.success, field, res_json.
  destruct (String.eqb_spec (Full.method req) "POST") as [Hm|Hm]; simpl.
  2: { split; [in_list|]. split; [reflexivity|]. split; [tauto|].
       split; [discriminate | tauto]. }
  destruct (Full.initialize env w) as [[[]|e] w1]; simpl.
  2: { split; [in_list|]. split; [reflexivity|].
       split; [split; [discriminate | tauto]|].
       split; [discriminate | intros (_ & H & _); discriminate H]. }
  destruct (Full.body req) as [b|]; simpl.
  2: { split; [in_list|]. split; [reflexivity|].
       split; [split; [discriminate | tauto]|].
       split; [discriminate | intros (_ & _ & b & H & _); discriminate H]. }
  destruct (invoke _ _ _) as [st w2 tr|e st w2 tr] eqn:Hrun; simpl.
  - split; [in_list|]. split; [reflexivity|].
    split; [split; [discriminate | tauto]|].
    split; [|reflexivity]. intros _. split; [exact Hm|]. split; [reflexivity|].
    exists b. split; [reflexivity|]. now rewrite Hrun.
  - split; [in_list|]. split; [reflexivity|].
    split; [split; [discriminate | tauto]|].
    split; [discriminate|]. intros (_ & _ & b' & [= <-] & H).
    rewrite Hrun in H. discriminate H.
Qed.

(** ** The Pinecone retriever *)

Lemma or_else_nonempty v d : d <> "" -> or_else v d <> "".
Proof.
  intros Hd. unfold or_else. destruct v as [s|]; [|exact Hd].
  destruct (String.eqb_spec s ""); [exact Hd | assumption].
Qed.

(** X7: the helper [queryPinecone], which is the Pinecone retriever of the
    enhanced and of the simplified version, answers with its error sentinel,
    with the not-found sentinel, or with the non-empty text of the first
    match; it never answers with the empty string, and matches after the
    first do not influence the answer.  The tool of the full version has
    the same block inlined in a module that does not import the embedding
    class the block names: it answers with the error sentinel whatever the
    vector index holds, and that sentinel is what the synthesis step of
    every run is handed as the Pinecone result. *)
Theorem pinecone_answer_shape (env : Env) (q : option string) :
  Enhanced.PineconeQueryTool_call env q = queryPinecone env q /\
  Simplified.PineconeQueryTool_call env q = queryPinecone env q /\
  String.eqb (queryPinecone env q) "" = false /\
  (queryPinecone env q = PINECONE_ERROR \/
   queryPinecone env q = NOT_FOUND \/
   exists m md rest,
     pinecone_query env q = Ok {| matches := Some (m :: rest) |} /\
     metadata m = Some md /\
     text md = Some (queryPinecone env q)) /\
  (forall m rest rest',
     pinecone_query env q = Ok {| matches := Some (m :: rest) |} ->
     queryPinecone env q =
       or_else (md ← metadata m; text md) NOT_FOUND /\
     forall env', pinecone_query env' q = Ok {| matches := Some (m :: rest') |} ->
       queryPinecone env' q = queryPinecone env q) /\
  resolve Full.scope "HuggingFaceTransformersEmbeddings" =
    Throw (ReferenceError "HuggingFaceTransformersEmbeddings") /\
  Full.PineconeQueryTool_call env q = PINECONE_ERROR /\
  (forall input w st,
     In ("respond", st) (visited (invoke (Full.workflow env) input w)) ->
     pinecone_result st = Some PINECONE_ERROR).
Proof.
  split; [reflexivity|]. split; [reflexivity|].
  split; [|split; [|split; [|split; [|split]]]].
  - apply String.eqb_neq. unfold queryPinecone.
    destruct (pinecone_query env q) as [[[ms|]]|e]; try discriminate.
    apply or_else_nonempty. discriminate.
  - unfold queryPinecone.
    destruct (pinecone_query env q) as [[[ms|]]|e]; [|now left|now left].
    destruct ms as [|m rest]; [right; now left|]. simpl.
    destruct (metadata m) as [md|] eqn:Hmd; [|right; now left]. simpl.
    destruct (text md) as [t|] eqn:Ht; [|right; now left]. simpl.
    destruct (String.eqb_spec t ""); [right; now left|].
    right; right. exists m, md, rest. repeat split; assumption.
  - intros m rest rest' H. unfold queryPinecone. rewrite H. simpl.
    split; [reflexivity|]. intros env' H'. now rewrite H'.
  - reflexivity.
  - reflexivity.
  - intros input w st. rewrite full_invoke_steps. intros Hin.
    destruct (respond_entry _ _ _ _ Hin) as (c & _ & ->). reflexivity.
Qed.

(** One vector index with a match for the query: the helper answers with
    the text of the match, the tool of the full version with its error
    sentinel. *)
Example pinecone_answers_differ :
  queryPinecone Sample.env_ok (Some "leave") = Sample.leave_text /\
  Full.PineconeQueryTool_call Sample.env_ok (Some "leave") = PINECONE_ERROR.
Proof. split; reflexivity. Qed.

(** ** The agent manager *)

Lemma agents_inv_step agents names c :
  agents_inv agents names ->
  agents_inv (AgentCalls.step agents c) (names ++ AgentCalls.added [c]).
Proof.
  intros Hinv n. destruct c as [name type | name m]; simpl.
  - unfold AIAgentManager.addAgent.
    destruct (decide (n = name)) as [->|Hne].
    + rewrite lookup_insert_eq. split.
      * intros _. eexists. split; reflexivity.
      * intros H. exfalso. apply H. apply elem_of_app. right.
        apply list_elem_of_singleton. reflexivity.
    + rewrite lookup_insert_ne by congruence.
      destruct (Hinv n) as [Hin Hout]. split.
      * intros H. apply elem_of_app in H as [H|H]; [now apply Hin|].
        apply list_elem_of_singleton in H. contradiction.
      * intros H. apply Hout. intros H'. apply H. apply elem_of_app. now left.
  - rewrite app_nil_r. unfold AIAgentManager.updateAgentMetrics.
    destruct (agents !! name) as [a|] eqn:Ha; [|apply Hinv].
    destruct (decide (n = name)) as [->|Hne].
    + rewrite lookup_insert_eq. destruct (Hinv name) as [Hin Hout]. split.
      * intros H. destruct (Hin H) as (a' & Ha' & Hact).
        rewrite Ha in Ha'. injection Ha' as <-.
        eexists. split; [reflexivity | exact Hact].
      * intros H. rewrite (Hout H) in Ha. discriminate Ha.
    + rewrite lookup_insert_ne by congruence. apply Hinv.
Qed.

Lemma added_app l1 l2 :
  AgentCalls.added (l1 ++ l2) = AgentCalls.added l1 ++ AgentCalls.added l2.
Proof. unfold AgentCalls.added. apply omap_app. Qed.

Lemma agents_inv_run calls : forall agents names,
  agents_inv agents names ->
  agents_inv (AgentCalls.run calls agents) (names ++ AgentCalls.added calls).
Proof.
  induction calls as [|c calls IH]; intros agents names Hinv.
  - simpl. now rewrite app_nil_r.
  - change (c :: calls) with ([c] ++ calls).
    rewrite added_app, (assoc_L (++)). unfold AgentCalls.run. simpl.
    apply IH. now apply agents_inv_step.
Qed.

Lemma agents_inv_new : agents_inv AIAgentManager.new [].
Proof.
  intros n. split; [intros H; now apply elem_of_nil in H | intros _; apply lookup_empty].
Qed.

(** X8: after any history of [addAgent] and [updateAgentMetrics] calls on a
    new agent manager, [getAgentStatus] answers "active" exactly for the
    names that were added and "not found" for every other name, and
    [updateAgentMetrics] for a name that was never added changes nothing. *)
Theorem agent_status_registry (calls : list AgentCalls.Call) (n : string) :
  AIAgentManager.getAgentStatus n (AgentCalls.run calls AIAgentManager.new) =
    (if decide (n ∈ AgentCalls.added calls) then "active" else "not found") /\
  (forall m, n ∉ AgentCalls.added calls ->
     AIAgentManager.updateAgentMetrics n m (AgentCalls.run calls AIAgentManager.new) =
       AgentCalls.run calls AIAgentManager.new).
Proof.
  destruct (agents_inv_run calls _ _ agents_inv_new n) as [Hin Hout].
  simpl in Hin, Hout. split.
  - unfold AIAgentManager.getAgentStatus.
    destruct (decide _) as [H|H].
    + destruct (Hin H) as (a & -> & Hact). cbn. now rewrite Hact.
    + now rewrite (Hout H).
  - intros m H. unfold AIAgentManager.updateAgentMetrics. now rewrite (Hout H).
Qed.

(** X9: [updateAgentMetrics] on a known agent keeps its type and status
    and merges the readings: a metric named in the update takes the new
    value, every other metric keeps its value, and other agents are not
    touched.  Readings overwrite and are not added up: the same update
    applied twice is the same as applied once. *)
Theorem agent_metrics_merge (agents : AIAgentManager.Agents) (name : string)
    (a : AIAgentManager.Agent) (m : gmap string Z) :
  agents !! name = Some a ->
  (exists a',
     AIAgentManager.updateAgentMetrics name m agents !! name = Some a' /\
     AIAgentManager.type a' = AIAgentManager.type a /\
     AIAgentManager.status a' = AIAgentManager.status a /\
     (forall k v, m !! k = Some v -> AIAgentManager.metrics a' !! k = Some v) /\
     (forall k, m !! k = None ->
        AIAgentManager.metrics a' !! k = AIAgentManager.metrics a !! k)) /\
  (forall other, other <> name ->
     AIAgentManager.updateAgentMetrics name m agents !! other = agents !! other) /\
  AIAgentManager.updateAgentMetrics name m
    (AIAgentManager.updateAgentMetrics name m agents) =
  AIAgentManager.updateAgentMetrics name m agents.
Proof.
  intros Ha. unfold AIAgentManager.updateAgentMetrics. rewrite Ha.
  split; [|split].
  - eexists. rewrite lookup_insert_eq. split; [reflexivity|].
    cbn [AIAgentManager.type AIAgentManager.status AIAgentManager.metrics].
    split; [reflexivity|]. split; [reflexivity|]. split.
    + intros k v Hk. now apply lookup_union_Some_l.
    + intros k Hk. now apply lookup_union_r.
  - intros other Hne. now rewrite lookup_insert_ne by congruence.
  - rewrite lookup_insert_eq.
    cbn [AIAgentManager.type AIAgentManager.status AIAgentManager.metrics].
    rewrite insert_insert_eq. f_equal. f_equal.
    now rewrite (assoc_L (∪)), (idemp_L (∪)).
Qed.

(** The categorizer of the handlers' agent manager after two runs' worth of
    updates still reads one processed query. *)
Lemma agent_metrics_merge_witness :
  AIAgentManager.updateAgentMetrics "HR Input Processing"
    AIAgentManager.queries_processed
    (AIAgentManager.updateAgentMetrics "HR Input Processing"
       AIAgentManager.queries_processed enhanced_agents) =
  AIAgentManager.updateAgentMetrics "HR Input Processing"
    AIAgentManager.queries_processed enhanced_agents.
Proof.
  apply (agent_metrics_merge enhanced_agents "HR Input Processing"
           (idle_agent "categorization") AIAgentManager.queries_processed).
  reflexivity.
Defined.

(** Which agents have processed a query after a run of the enhanced
    and of the simplified graph. *)
Lemma enhanced_world_cases env input a :
  (ran "pinecone_query" (visited (invoke (Enhanced.workflow env) input a)) = false /\
   world_of (invoke (Enhanced.workflow env) input a) = a) \/
  (ran "pinecone_query" (visited (invoke (Enhanced.workflow env) input a)) = true /\
   world_of (invoke (Enhanced.workflow env) input a) =
     AIAgentManager.updateAgentMetrics "LlamaIndex Query"
       AIAgentManager.queries_processed
       (AIAgentManager.updateAgentMetrics "Pinecone Query"
          AIAgentManager.queries_processed
          (AIAgentManager.updateAgentMetrics "HR Input Processing"
             AIAgentManager.queries_processed a))).
Proof.
  run_graph.
  destruct (employee_context input) as [ctx|]; run_graph;
    [|left; split; reflexivity].
  destruct (Enhanced.HRInputProcessingTool_call (query input)) as [c|e]; run_graph;
    [|left; split; reflexivity].
  right.
  destruct (chain_invoke env _) as [r|e]; run_graph; [|split; reflexivity].
  destruct (conversation_history input); split; reflexivity.
Qed.

Lemma enhanced_handler_run env req out :
  Enhanced.appwriteFunction env req = Ok out ->
  (t_agents out = enhanced_agents /\ t_executed out = []) \/
  (exists p, payload req = Some p /\
     t_agents out = world_of (enhanced_run env p) /\
     t_executed out = visited (enhanced_run env p)).
Proof.
  unfold Enhanced.appwriteFunction, enhanced_run. cbv zeta.
  destruct (setupPinecone env) as [[]|e0]; [|discriminate].
  destruct (createAgent env) as [[]|e1];
    [|intros [= <-]; left; split; reflexivity].
  destruct (payload req) as [p|];
    [|intros [= <-]; left; split; reflexivity].
  destruct (invoke _ _ _) as [st ag tr|e st ag tr] eqn:Hrun.
  - destruct (final_response st) as [final|];
      [destruct (escalate _ _ _ _) as [tid ts]|];
      intros [= <-]; right; exists p; rewrite Hrun; repeat split; reflexivity.
  - intros [= <-]. right. exists p. rewrite Hrun. repeat split; reflexivity.
Qed.

(** X10: whenever the enhanced handler answers, the three agents it
    registered are all that the agent manager knows.  If the run got past
    the classifier, each of the three has the single reading
    queries_processed = 1; if it did not (no run, no context, or the
    classifier threw), none of them has any reading.  A 200 answer implies
    the first case. *)
Theorem enhanced_agent_metrics (env : Env) (req : PayloadRequest)
    (out : TicketingOutcome) :
  Enhanced.appwriteFunction env req = Ok out ->
  t_agents out =
    (if ran "pinecone_query" (t_executed out) then busy_agents else enhanced_agents) /\
  dom (t_agents out) =
    ({[ "HR Input Processing"; "Pinecone Query"; "LlamaIndex Query" ]} : gset string) /\
  (statusCode (t_response out) = 200%Z ->
     ran "pinecone_query" (t_executed out) = true).
Proof.
  intros H.
  assert (Hagents : t_agents out =
    if ran "pinecone_query" (t_executed out) then busy_agents else enhanced_agents).
  { destruct (enhanced_handler_run _ _ _ H) as [[-> ->] | (p & _ & -> & ->)];
      [reflexivity|].
    pose proof (enhanced_world_cases env
                  (initial_state (payload_query p) (payload_employeeContext p) (Some []))
                  enhanced_agents) as Hw.
    unfold enhanced_agents in Hw. unfold enhanced_run.
    destruct Hw as [[-> ->] | [-> ->]]; reflexivity. }
  split; [exact Hagents|]. split.
  - rewrite Hagents. destruct (ran _ _); reflexivity.
  - intros H200.
    destruct (enhanced_success _ _ _ H H200) as (p & final & _ & Hok & _ & _ & _ & ->).
    unfold enhanced_run in *.
    destruct (enhanced_finished _ _ _ Hok) as (? & ? & ? & ? & _ & _ & _ & _ & Htr).
    unfold ran. rewrite existsb_exists.
    destruct (visited _) as [|[k1 s1] [|[k2 s2] [|[k3 s3] l]]]; try discriminate Htr.
    exists (k3, s3). split; [do 2 right; now left|].
    cbn in Htr. injection Htr as _ _ -> _. reflexivity.
Qed.

(** After the unknown query of the second scenario all three agents have
    processed one query. *)
Lemma enhanced_agent_metrics_witness :
  on_ok t_agents ∅
    (Enhanced.appwriteFunction Sample.env_escalate
       (Sample.ask "asdkjasd" (Some Sample.ctx))) = busy_agents.
Proof.
  destruct (Enhanced.appwriteFunction Sample.env_escalate
              (Sample.ask "asdkjasd" (Some Sample.ctx))) as [out|e] eqn:E.
  2: { assert (Hok : is_ok (Enhanced.appwriteFunction Sample.env_escalate
                              (Sample.ask "asdkjasd" (Some Sample.ctx))) = true)
         by (vm_compute; reflexivity).
       rewrite E in Hok. discriminate Hok. }
  destruct (enhanced_agent_metrics Sample.env_escalate _ out E) as (Hagents & _ & _).
  assert (Hran : ran "pinecone_query" (t_executed out) = true).
  { change (on_ok (fun o => ran "pinecone_query" (t_executed o)) false (Ok out) = true).
    rewrite <- E. vm_compute. reflexivity. }
  rewrite Hran in Hagents. exact Hagents.
Defined.

(** ** More on tickets *)

Lemma string_of_Z_inj n m : string_of_Z n = string_of_Z m -> n = m.
Proof.
  unfold string_of_Z. intros H.
  assert (Hnn : forall z, Z.to_int z <> Decimal.Pos Decimal.Nil /\
                          Z.to_int z <> Decimal.Neg Decimal.Nil).
  { intros [|p|p]; simpl; split; try discriminate; intros [= Hp];
      now apply (DecimalPos.Unsigned.to_uint_nonnil p). }
  apply DecimalZ.to_int_inj.
  assert (Hs : Some (Z.to_int n) = Some (Z.to_int m)).
  { rewrite <- (NilZero.isi (Z.to_int n)) by apply Hnn.
    rewrite <- (NilZero.isi (Z.to_int m)) by apply Hnn.
    now rewrite H. }
  now injection Hs.
Qed.

Lemma ticket_id_inj n m :
  "TICKET-" +:+ string_of_Z n = "TICKET-" +:+ string_of_Z m -> n = m.
Proof. intros H. injection H as H. now apply string_of_Z_inj. Qed.

(** X11: [updateTicket] on an id that holds no ticket changes nothing.  On
    an id that holds a ticket it appends the update, with its time, at the
    end of that ticket's updates and keeps id, description, status and
    priority; every other ticket and the set of ids stay as they are. *)
Theorem update_ticket_appends (tickets : TicketManagementSystem.Tickets)
    (i update : string) (now : Z) :
  (tickets !! i = None ->
     TicketManagementSystem.updateTicket i update now tickets = tickets) /\
  (forall t, tickets !! i = Some t ->
     TicketManagementSystem.updateTicket i update now tickets !! i =
       Some (with_update t now update)) /\
  (forall j, j <> i ->
     TicketManagementSystem.updateTicket i update now tickets !! j = tickets !! j) /\
  dom (TicketManagementSystem.updateTicket i update now tickets) = dom tickets /\
  TicketManagementSystem.getTicketStatus i
    (TicketManagementSystem.updateTicket i update now tickets) =
  TicketManagementSystem.getTicketStatus i tickets.
Proof.
  unfold TicketManagementSystem.updateTicket, TicketManagementSystem.getTicketStatus.
  destruct (tickets !! i) as [t|] eqn:Ht.
  - split; [discriminate|]. split; [|split; [|split]].
    + intros t' [= <-]. apply lookup_insert_eq.
    + intros j Hj. now rewrite lookup_insert_ne by congruence.
    + rewrite dom_insert_L. apply elem_of_dom_2 in Ht.
      apply subseteq_union_1_L. now apply singleton_subseteq_l.
    + rewrite lookup_insert_eq. reflexivity.
  - split; [reflexivity|]. split; [discriminate|].
    split; [reflexivity|]. split; [reflexivity|]. now rewrite Ht.
Qed.

(** The updates of a ticket come out in the order they were made. *)
Lemma update_ticket_appends_witness :
  TicketManagementSystem.updates <$>
    (TicketManagementSystem.updateTicket "TICKET-5" "shipped" 30
       (TicketManagementSystem.updateTicket "TICKET-5" "ordered" 20
          (snd (TicketManagementSystem.createTicket "laptop" None 5
                  TicketManagementSystem.new))) !! "TICKET-5") =
  Some [ (20%Z, "ordered"); (30%Z, "shipped") ].
Proof.
  destruct (update_ticket_appends
              (TicketManagementSystem.updateTicket "TICKET-5" "ordered" 20
                 (snd (TicketManagementSystem.createTicket "laptop" None 5
                         TicketManagementSystem.new)))
              "TICKET-5" "shipped" 30) as (_ & H & _).
  rewrite (H (with_update
                {| TicketManagementSystem.id := "TICKET-5";
                   TicketManagementSystem.description := "laptop";
                   TicketManagementSystem.status := "open";
                   TicketManagementSystem.priority := "medium";
                   TicketManagementSystem.updates := [] |} 20 "ordered"));
    reflexivity.
Defined.

(** X12: ticket ids are made from the clock alone.  Two tickets get the
    same id exactly when they are created at the same clock reading; the
    later one then replaces the earlier one, whose description, priority
    and updates are lost, as if the earlier ticket had never been created.
    At different readings both are kept, and the earlier one is not
    touched by the later creation. *)
Theorem ticket_ids_collide_on_equal_time (d1 d2 : string) (p1 p2 : option string)
    (n1 n2 : Z) (tickets : TicketManagementSystem.Tickets) :
  (fst (TicketManagementSystem.createTicket d1 p1 n1 tickets) =
   fst (TicketManagementSystem.createTicket d2 p2 n2
          (snd (TicketManagementSystem.createTicket d1 p1 n1 tickets)))
   <-> n1 = n2) /\
  (n1 = n2 ->
     snd (TicketManagementSystem.createTicket d2 p2 n2
            (snd (TicketManagementSystem.createTicket d1 p1 n1 tickets))) =
     snd (TicketManagementSystem.createTicket d2 p2 n2 tickets)) /\
  (n1 <> n2 ->
     snd (TicketManagementSystem.createTicket d2 p2 n2
            (snd (TicketManagementSystem.createTicket d1 p1 n1 tickets)))
       !! fst (TicketManagementSystem.createTicket d1 p1 n1 tickets) =
     snd (TicketManagementSystem.createTicket d1 p1 n1 tickets)
       !! fst (TicketManagementSystem.createTicket d1 p1 n1 tickets)).
Proof.
  unfold TicketManagementSystem.createTicket. cbn [fst snd].
  split; [|split].
  - split; [apply ticket_id_inj | now intros ->].
  - intros ->. apply insert_insert_eq.
  - intros Hne. apply lookup_insert_ne. intros H. apply Hne.
    symmetry. now apply ticket_id_inj.
Qed.

(** Two tickets filed in the same millisecond: one ticket remains, the
    second. *)
Lemma ticket_ids_collide_on_equal_time_witness :
  snd (TicketManagementSystem.createTicket "badge" (Some "high") 1700000000000
         (snd (TicketManagementSystem.createTicket "laptop" None 1700000000000
                 TicketManagementSystem.new))) =
  snd (TicketManagementSystem.createTicket "badge" (Some "high") 1700000000000
         TicketManagementSystem.new).
Proof.
  apply (ticket_ids_collide_on_equal_time "laptop" "badge" None (Some "high")
           1700000000000 1700000000000 TicketManagementSystem.new).
  reflexivity.
Defined.

(** ** The answers of the ticketing handlers *)

Ltac answer_failed :=
  split; [reflexivity | right; eexists; split; reflexivity].

Lemma enhanced_answer env req :
  match Enhanced.appwriteFunction env req with
  | Throw e => setupPinecone env = Throw e
  | Ok out =>
      is_ok (setupPinecone env) = true /\
      ((statusCode (t_response out) = 200%Z /\
        exists st tid, t_response out = Enhanced.success st tid) \/
       (exists err, t_response out = processingError err /\ t_tickets out = ∅))
  end.
Proof.
  unfold Enhanced.appwriteFunction. cbv zeta.
  destruct (setupPinecone env) as [[]|e0]; [|reflexivity].
  destruct (createAgent env) as [[]|e1]; [|answer_failed].
  destruct (payload req) as [p|]; [|answer_failed].
  destruct (invoke _ _ _) as [st ag tr|e st ag tr]; [|answer_failed].
  destruct (final_response st) as [final|]; [|answer_failed].
  destruct (escalate _ _ _ _) as [tid ts].
  split; [reflexivity|]. left. split; [reflexivity|]. now exists st, tid.
Qed.




(** X14: the success answer of the simplified handler consists of the
    synthesized response (as [result]), the category, and the Pinecone
    result, followed by a [ticketId] exactly when the response contains
    the escalation marker; the run went through its three nodes. *)
Theorem simplified_success_response (env : Env) (req : PayloadRequest)
    (out : TicketingOutcome) :
  Simplified.handler env req = Ok out ->
  statusCode (t_response out) = 200%Z ->
  exists p final c,
    payload req = Some p /\
    Simplified.HRInputProcessingTool_call (payload_query p) = Ok c /\
    responseBody (t_response out) =
      [ ("result", VStr final);
        ("category", VStr c);
        ("pinecone_result", VStr (queryPinecone env (payload_query p))) ] ++
      (if includes (toLowerCase final) "contact hr"
       then [ ("ticketId", VStr ("TICKET-" +:+ string_of_Z (now env))) ]
       else []) /\
    map fst (t_executed out) = SIMPLIFIED_ORDER.
Proof.
  intros H H200.
  destruct (simplified_success _ _ _ H H200)
    as (p & final & Hp & Hok & Hf & -> & _ & ->).
  unfold simplified_run in *.
  destruct (simplified_finished _ _ _ Hok) as (c & r & Hc & Hst & Htr).
  rewrite Hst in Hf |- *. cbn in Hf. injection Hf as ->.
  exists p, final, c. do 2 (split; [assumption|]). split; [|exact Htr].
  unfold escalate, ESCALATION_MARKER.
  destruct (includes (toLowerCase final) "contact hr"); reflexivity.
Qed.

(** The leave question on the simplified handler: three fields, no ticket. *)
Lemma simplified_success_response_witness :
  on_ok (fun out => keys (t_response out)) []
    (Simplified.handler Sample.env_ok (Sample.ask "What is our leave policy?" None)) =
  [ "result"; "category"; "pinecone_result" ].
Proof.
  destruct (Simplified.handler Sample.env_ok
              (Sample.ask "What is our leave policy?" None)) as [out|e] eqn:E.
  2: { assert (Hok : is_ok (Simplified.handler Sample.env_ok
                              (Sample.ask "What is our leave policy?" None)) = true)
         by (vm_compute; reflexivity).
       rewrite E in Hok. discriminate Hok. }
  assert (H200 : statusCode (t_response out) = 200%Z).
  { change (on_ok (fun o => statusCode (t_response o)) 0%Z (Ok out) = 200%Z).
    rewrite <- E. vm_compute. reflexivity. }
  assert (Hres : field "result" (t_response out) =
            Some (VStr "You have 20 days of annual leave.")).
  { change (on_ok (fun o => field "result" (t_response o)) None (Ok out) =
            Some (VStr "You have 20 days of annual leave.")).
    rewrite <- E. vm_compute. reflexivity. }
  destruct (simplified_success_response Sample.env_ok _ out E H200)
    as (p & final & c & _ & _ & Hbody & _).
  cbn [on_ok]. unfold keys. unfold field in Hres. rewrite Hbody in Hres |- *.
  injection Hres as ->. reflexivity.
Defined.

(** ** Missing context and missing history *)

(** X15: when the payload gives no employee context, the enhanced handler
    answers 500 with the TypeError of reading [department] of undefined:
    the context node throws, it is the only node that ran, so the
    classifier, the retrievers and the generative backend were not
    invoked, no agent has any reading and no ticket was filed. *)
Theorem enhanced_needs_context (env : Env) (req : PayloadRequest) (p : Payload) :
  setupPinecone env = Ok tt ->
  createAgent env = Ok tt ->
  payload req = Some p ->
  payload_employeeContext p = None ->
  exists out,
    Enhanced.appwriteFunction env req = Ok out /\
    t_response out = processingError (undefined_property "department") /\
    statusCode (t_response out) = 500%Z /\
    field "details" (t_response out) =
      Some (VStr "Cannot read properties of undefined (reading 'department')") /\
    map fst (t_executed out) = [ "fetch_employee_context" ] /\
    t_agents out = enhanced_agents /\
    t_tickets out = ∅.
Proof.
  intros Hs Hc Hp Hctx. unfold Enhanced.appwriteFunction. cbv zeta.
  rewrite Hs, Hc, Hp, Hctx.
  rewrite enhanced_absent_context by reflexivity.
  eexists. split; [reflexivity|]. repeat split; reflexivity.
Qed.

Lemma enhanced_needs_context_witness :
  exists out,
    Enhanced.appwriteFunction Sample.env_ok (Sample.ask "hi" None) = Ok out /\
    statusCode (t_response out) = 500%Z /\
    map fst (t_executed out) = [ "fetch_employee_context" ].
Proof.
  destruct (enhanced_needs_context Sample.env_ok (Sample.ask "hi" None)
              {| payload_query := Some "hi"; payload_employeeContext := None |}
              eq_refl eq_refl eq_refl eq_refl)
    as (out & H & _ & H500 & _ & Htr & _).
  exists out. repeat split; assumption.
Defined.

(** X16: when a POST body gives a query but no conversation history and
    the generative backend answers, the handler of the full version still
    answers 500: all six nodes run, the backend included, and the history
    node then throws because there is nothing to spread; the synthesized
    response is not returned. *)
Theorem full_needs_history (env : Env) (req : Full.Request) (w : Full.Instance)
    (b : Full.Body) (q : string) :
  Full.method req = "POST" ->
  fst (Full.initialize env w) = Ok tt ->
  Full.body req = Some b ->
  Full.body_query b = Some q ->
  Full.body_conversation_history b = None ->
  (forall st, is_ok (chain_invoke env st) = true) ->
  statusCode (Full.response (Full.handler env req w)) = 500%Z /\
  field "error" (Full.response (Full.handler env req w)) =
    Some (VStr "state.conversation_history is not iterable") /\
  field "final_response" (Full.response (Full.handler env req w)) = None /\
  map fst (Full.executed (Full.handler env req w)) = FULL_ORDER.
Proof.
  intros Hm Hi Hb Hq Hh Hchain. unfold Full.handler.
  rewrite Hm, Hb. cbn [String.eqb Ascii.eqb Bool.eqb negb].
  destruct (Full.initialize env w) as [[[]|e] w1]; [|discriminate Hi].
  rewrite full_invoke_steps. unfold Steps.run. cbn [query initial_state].
  rewrite Hq. destruct (full_classifier_total q) as (c & -> & _).
  match goal with
  | |- context [chain_invoke env ?st] =>
      pose proof (Hchain st) as Hst; destruct (chain_invoke env st) as [r|e]
  end; [|discriminate Hst].
  cbn [conversation_history initial_state]. rewrite Hh.
  repeat split; reflexivity.
Qed.

Lemma full_needs_history_witness :
  statusCode (Full.response (Full.handler Sample.env_ok
     {| Full.method := "POST";
        Full.body := Some {| Full.body_query := Some "leave";
                             Full.body_employee_context := None;
                             Full.body_conversation_history := None |} |}
     Sample.fresh)) = 500%Z /\
  map fst (Full.executed (Full.handler Sample.env_ok
     {| Full.method := "POST";
        Full.body := Some {| Full.body_query := Some "leave";
                             Full.body_employee_context := None;
                             Full.body_conversation_history := None |} |}
     Sample.fresh)) = FULL_ORDER.
Proof.
  destruct (full_needs_history Sample.env_ok
     {| Full.method := "POST";
        Full.body := Some {| Full.body_query := Some "leave";
                             Full.body_employee_context := None;
                             Full.body_conversation_history := None |} |}
     Sample.fresh
     {| Full.body_query := Some "leave"; Full.body_employee_context := None;
        Full.body_conversation_history := None |} "leave")
    as (H500 & _ & _ & Htr); try reflexivity.
  split; assumption.
Defined.

(** ** The returned ticket id *)

Lemma processing_error_no_ticket err :
  field "ticketId" (processingError err) = None.
Proof. reflexivity. Qed.

(** X17: whenever the enhanced handler answers, the ticket system it leaves
    behind knows exactly the id it returned: [getTicketStatus] reads "open"
    for the [ticketId] of the answer and "not found" for every other id,
    and for every id when the answer has no [ticketId]. *)
Theorem returned_ticket_is_open (env : Env) (req : PayloadRequest)
    (out : TicketingOutcome) (i : string) :
  Enhanced.appwriteFunction env req = Ok out ->
  TicketManagementSystem.getTicketStatus i (t_tickets out) =
    match field "ticketId" (t_response out) with
    | Some (VStr tid) => if String.eqb i tid then "open" else "not found"
    | _ => "not found"
    end.
Proof.
  intros H.
  assert (Hcase :
    (exists final q,
       field "ticketId" (t_response out) =
         VStr <$> fst (escalate final q (now env) TicketManagementSystem.new) /\
       t_tickets out = snd (escalate final q (now env) TicketManagementSystem.new)) \/
    (field "ticketId" (t_response out) = None /\ t_tickets out = ∅)).
  { pose proof (enhanced_answer env req) as Ha. rewrite H in Ha.
    destruct Ha as [_ [[H200 _] | (err & Hr & Ht)]].
    - left. destruct (enhanced_success _ _ _ H H200)
        as (p & final & _ & _ & _ & -> & -> & _).
      exists final, (payload_query p). split; [|reflexivity].
      apply enhanced_success_fields.
    - right. rewrite Hr. now split. }
  destruct Hcase as [(final & q & -> & ->) | [-> ->]]; [|reflexivity].
  unfold escalate, TicketManagementSystem.getTicketStatus,
    TicketManagementSystem.createTicket.
  destruct (includes (toLowerCase final) ESCALATION_MARKER); cbn [fst snd fmap option_fmap option_map];
    [|reflexivity].
  destruct (String.eqb_spec i ("TICKET-" +:+ string_of_Z (now env))) as [->|Hne].
  - rewrite lookup_insert_eq. reflexivity.
  - rewrite lookup_insert_ne by congruence. reflexivity.
Qed.

Lemma returned_ticket_is_open_witness :
  on_ok (fun out =>
           TicketManagementSystem.getTicketStatus "TICKET-1700000000000"
             (t_tickets out)) ""
    (Enhanced.appwriteFunction Sample.env_escalate
       (Sample.ask "asdkjasd" (Some Sample.ctx))) = "open".
Proof.
  destruct (Enhanced.appwriteFunction Sample.env_escalate
              (Sample.ask "asdkjasd" (Some Sample.ctx))) as [out|e] eqn:E.
  2: { assert (Hok : is_ok (Enhanced.appwriteFunction Sample.env_escalate
                              (Sample.ask "asdkjasd" (Some Sample.ctx))) = true)
         by (vm_compute; reflexivity).
       rewrite E in Hok. discriminate Hok. }
  cbn [on_ok].
  rewrite (returned_ticket_is_open Sample.env_escalate _ out "TICKET-1700000000000" E).
  assert (Hid : field "ticketId" (t_response out) = Some (VStr "TICKET-1700000000000")).
  { change (on_ok (fun o => field "ticketId" (t_response o)) None (Ok out) =
            Some (VStr "TICKET-1700000000000")).
    rewrite <- E. vm_compute. reflexivity. }
  rewrite Hid. reflexivity.
Defined.

(** ** Channels are written by their own node only *)

(** X18: in a run of the full workflow on a state built from a request,
    each channel is written by its own node and by no other: the category
    is set exactly when the classifier returned, both retrieval channels
    are set exactly together with the category, the final response is set
    exactly when the backend answered, and the conversation history
    differs from the caller's only when the run finished; the query is
    never changed. *)
Theorem channels_follow_the_path (env : Env) (w : Full.Instance)
    (q : option string) (ctx : option EmployeeContext) (h : option (list Message)) :
  query (final_state (invoke (Full.workflow env) (initial_state q ctx h) w)) = q /\
  (is_Some (category (final_state (invoke (Full.workflow env) (initial_state q ctx h) w)))
   <-> ran "pinecone_query"
         (visited (invoke (Full.workflow env) (initial_state q ctx h) w)) = true) /\
  (is_Some (pinecone_result
              (final_state (invoke (Full.workflow env) (initial_state q ctx h) w)))
   <-> is_Some (category
              (final_state (invoke (Full.workflow env) (initial_state q ctx h) w)))) /\
  (is_Some (llamaindex_result
              (final_state (invoke (Full.workflow env) (initial_state q ctx h) w)))
   <-> is_Some (category
              (final_state (invoke (Full.workflow env) (initial_state q ctx h) w)))) /\
  (is_Some (final_response
              (final_state (invoke (Full.workflow env) (initial_state q ctx h) w)))
   <-> ran "update_conversation_history"
         (visited (invoke (Full.workflow env) (initial_state q ctx h) w)) = true) /\
  (succeeded (invoke (Full.workflow env) (initial_state q ctx h) w) = false ->
   conversation_history
     (final_state (invoke (Full.workflow env) (initial_state q ctx h) w)) = h).
Proof.
  rewrite full_invoke_steps. unfold Steps.run. cbn [query initial_state].
  destruct (Full.HRInputProcessingTool_call q) as [c|e].
  - destruct (chain_invoke env _) as [r|e].
    + cbn [conversation_history initial_state].
      destruct h as [h|]; cbn;
        (split; [reflexivity|]);
        repeat (split; [split; intros _; first [reflexivity | eexists; reflexivity]|]);
        first [discriminate | reflexivity].
    + cbn. split; [reflexivity|].
      do 3 (split; [split; intros _; first [reflexivity | eexists; reflexivity]|]).
      split; [|reflexivity].
      split; [intros [x Hx]; discriminate Hx | discriminate].
  - cbn. split; [reflexivity|].
    split; [split; [intros [x Hx]; discriminate Hx | discriminate]|].
    do 2 (split; [split; intros [x Hx]; discriminate Hx|]).
    split; [|reflexivity].
    split; [intros [x Hx]; discriminate Hx | discriminate].
Qed.
